(** * Pending Changes Reviewer: the snapshot manager

    A shallow embedding of [SnapshotManager] (snapshotManager.ts): the two
    maps of tracked baselines and deleted records, the operations that
    capture, list, accept and revert, and the line counter behind the
    addition/deletion numbers.  The host (VS Code workspace and Node [fs])
    is an explicit value: open text documents, a disk, and the outcome of
    every fallible host call. *)

From Stdlib Require Import Ascii String.
From stdpp Require Import base option list strings gmap fin_maps.

Local Open Scope string_scope.

(** ** JavaScript strings and [split('\n')] *)

Module Js.

(** The separator of every [split] in the source: the line feed. *)
Definition LF : ascii := ascii_of_nat 10.

Definition nl : string := String LF EmptyString.

(** [s.split('\n')]: the segments between line feeds; a string without a
    line feed (the empty one too) gives one segment. *)
Fixpoint split (s : string) : list string :=
  match s with
  | EmptyString => [EmptyString]
  | String c rest =>
      if Ascii.eqb c LF then EmptyString :: split rest
      else match split rest with
           | [] => [String c EmptyString]
           | line :: lines => String c line :: lines
           end
  end.

End Js.

(** ** countChanges *)

Record ChangeCounts := mkCounts { additions : nat; deletions : nat }.

(** [private countChanges(original, current)]: the two [Set]s are [gset]s,
    the two [for ... of] loops are left folds over the line arrays that
    bump a counter. *)
Definition countChanges (original current : string) : ChangeCounts :=
  let originalLines := Js.split original in
  let currentLines := Js.split current in
  let originalSet : gset string := list_to_set originalLines in
  let currentSet : gset string := list_to_set currentLines in
  let additions :=
    fold_left (fun additions line =>
                 if decide (line ∈ originalSet) then additions else S additions)
              currentLines 0 in
  let deletions :=
    fold_left (fun deletions line =>
                 if decide (line ∈ currentSet) then deletions else S deletions)
              originalLines 0 in
  mkCounts additions deletions.

(** The counter and the line count as the specification words them,
    without the code's [split].  A content is split on its line boundaries
    into lines, texts without a line feed that give the content back when
    they are put together with a line feed between each two.  The counter
    takes the distinct line texts of one side that are absent from the
    other side's line set, and counts each of them once per occurrence on
    its own side. *)
Module Reference.

Definition lineFeed : ascii := "010"%char.

(** A line is a text without a line feed. *)
Definition isLine (line : string) : Prop := lineFeed ∉ list_ascii_of_string line.

(** Lines put together again, with a line feed at each boundary. *)
Fixpoint joined (lines : list string) : string :=
  match lines with
  | [] => ""
  | line :: rest =>
      match rest with
      | [] => line
      | _ :: _ => line +:+ String lineFeed (joined rest)
      end
  end.

(** [lines] is [content] split on its line boundaries. *)
Definition splitsInto (content : string) (lines : list string) : Prop :=
  lines ≠ [] ∧ Forall isLine lines ∧ joined lines = content.

(** The number of lines of a content: one more than it has line feeds. *)
Definition lineCount (content : string) : nat :=
  S (length (filter (λ c, c = lineFeed) (list_ascii_of_string content))).

Definition occurrences (text : string) (lines : list string) : nat :=
  length (filter (fun l => l = text) lines).

Definition one_sided (side other : list string) : nat :=
  let sideSet : gset string := list_to_set side in
  let otherSet : gset string := list_to_set other in
  sum_list ((fun text => occurrences text side) <$> elements (sideSet ∖ otherSet)).

(** The two counts, from the lines of the original and of the current
    content. *)
Definition additions (originalLines currentLines : list string) : nat :=
  one_sided currentLines originalLines.

Definition deletions (originalLines currentLines : list string) : nat :=
  one_sided originalLines currentLines.

End Reference.


(** ** Data model *)

(** [vscode.Uri]: the manager only ever reads [fsPath]. *)
Record Uri := mkUri { fsPath : string }.

(** [interface FileSnapshot]; [snapshotTime] is the host clock's reading. *)
Module FileSnapshot.
Record t := mk {
  uri : Uri;
  originalContent : string;
  snapshotTime : nat;
  relativePath : string;
  isNewFile : bool
}.
End FileSnapshot.

Inductive ChangeType := modified | created | deleted.

(** [interface FileChange]. *)
Module FileChange.
Record t := mk {
  uri : Uri;
  relativePath : string;
  originalContent : string;
  currentContent : string;
  snapshotTime : nat;
  changeType : ChangeType;
  additions : nat;
  deletions : nat
}.
End FileChange.

(** The fields of [class SnapshotManager]. *)
Record SnapshotManager := mkManager {
  snapshots : gmap string FileSnapshot.t;
  deletedFiles : gmap string FileSnapshot.t;
  workspaceRoot : option string
}.

(** ** The host: VS Code workspace and Node [fs] *)

Inductive Error :=
  | ErrnoException (code : string)
  | HostError.

Inductive EditOutcome := EditApplied | EditRejected | EditThrows.
Inductive SaveOutcome := SaveWritten | SaveRefused | SaveThrows.

(** Open documents ([workspace.textDocuments], by [fsPath] with their text),
    the files on disk, and what each fallible call does on each path: a path
    absent from a fault table behaves normally.  [pathRelative] and
    [pathBasename] stand for Node's [path.relative] and [path.basename]. *)
Record Host := mkHost {
  textDocuments : list (string * string);
  disk : gmap string string;
  readFileError : gmap string string;
  writeFileError : gmap string string;
  unlinkError : gmap string string;
  openTextDocumentError : gset string;
  applyEditOutcome : gmap string EditOutcome;
  saveOutcome : gmap string SaveOutcome;
  pathRelative : string → string → string;
  pathBasename : string → string;
  now : nat
}.

(** What an operation does besides changing the maps and the host. *)
Inductive Effect :=
  | SnapshotsChanged                       (* _onSnapshotsChanged.fire() *)
  | ConsoleError (message : string)
  | FsWriteFile (path data : string)
  | FsUnlink (path : string).

Record World := mkWorld {
  this : SnapshotManager;
  host : Host;
  effects : list Effect
}.

Definition withThis (f : SnapshotManager → SnapshotManager) (w : World) : World :=
  mkWorld (f (this w)) (host w) (effects w).

Definition withHost (f : Host → Host) (w : World) : World :=
  mkWorld (this w) (f (host w)) (effects w).

Definition emit (e : Effect) (w : World) : World :=
  mkWorld (this w) (host w) (effects w ++ [e])%list.

Definition withSnapshots (f : gmap string FileSnapshot.t → gmap string FileSnapshot.t)
    (m : SnapshotManager) : SnapshotManager :=
  mkManager (f (snapshots m)) (deletedFiles m) (workspaceRoot m).

Definition withDeletedFiles (f : gmap string FileSnapshot.t → gmap string FileSnapshot.t)
    (m : SnapshotManager) : SnapshotManager :=
  mkManager (snapshots m) (f (deletedFiles m)) (workspaceRoot m).

Definition withDisk (f : gmap string string → gmap string string) (h : Host) : Host :=
  mkHost (textDocuments h) (f (disk h)) (readFileError h) (writeFileError h)
         (unlinkError h) (openTextDocumentError h) (applyEditOutcome h)
         (saveOutcome h) (pathRelative h) (pathBasename h) (now h).

Definition withTextDocuments (f : list (string * string) → list (string * string))
    (h : Host) : Host :=
  mkHost (f (textDocuments h)) (disk h) (readFileError h) (writeFileError h)
         (unlinkError h) (openTextDocumentError h) (applyEditOutcome h)
         (saveOutcome h) (pathRelative h) (pathBasename h) (now h).

(** ** Computations: state that survives an exception *)

Inductive Completion (A : Type) :=
  | Normal (a : A)
  | Throw (e : Error).
Arguments Normal {A} a.
Arguments Throw {A} e.

(** A statement runs in a world and completes normally or abruptly; what it
    changed before throwing stays changed, as in JavaScript. *)
Definition M (A : Type) : Type := World → Completion A * World.

Definition ret {A} (a : A) : M A := λ w, (Normal a, w).

Definition bind {A B} (m : M A) (f : A → M B) : M B := λ w,
  match m w with
  | (Normal a, w') => f a w'
  | (Throw e, w') => (Throw e, w')
  end.

Declare Scope M_scope.
Delimit Scope M_scope with M.
Bind Scope M_scope with M.
Notation "x ← m ; k" := (bind m (λ x, k))
  (at level 20, m at level 100, k at level 200, only parsing) : M_scope.
Notation "m ;; k" := (bind m (λ _, k))
  (at level 100, k at level 200, right associativity, only parsing) : M_scope.
Local Open Scope M_scope.

Definition throw {A} (e : Error) : M A := λ w, (Throw e, w).

(** [try { body } catch (error) { handler }]. *)
Definition tryCatch {A} (body : M A) (handler : Error → M A) : M A := λ w,
  match body w with
  | (Normal a, w') => (Normal a, w')
  | (Throw e, w') => handler e w'
  end.

Definition gets {A} (f : World → A) : M A := λ w, (Normal (f w), w).
Definition modify (f : World → World) : M unit := λ w, (Normal tt, f w).

(** [for (const x of items) { ... }] with the loop's local variable
    threaded as an accumulator. *)
Fixpoint forOf {A S} (items : list A) (body : A → S → M S) (acc : S) : M S :=
  match items with
  | [] => ret acc
  | x :: rest => acc' ← body x acc; forOf rest body acc'
  end.

(** ** Host calls *)

(** [fs.promises]: a missing file rejects with [ENOENT], a path in a fault
    table with that table's code. *)
Module Fs.

Definition readFile (path : string) : M string := λ w,
  match readFileError (host w) !! path with
  | Some code => (Throw (ErrnoException code), w)
  | None =>
      match disk (host w) !! path with
      | Some content => (Normal content, w)
      | None => (Throw (ErrnoException "ENOENT"), w)
      end
  end.

Definition writeFile (path data : string) : M unit := λ w,
  let w := emit (FsWriteFile path data) w in
  match writeFileError (host w) !! path with
  | Some code => (Throw (ErrnoException code), w)
  | None => (Normal tt, withHost (withDisk (insert path data)) w)
  end.

Definition unlink (path : string) : M unit := λ w,
  let w := emit (FsUnlink path) w in
  match unlinkError (host w) !! path with
  | Some code => (Throw (ErrnoException code), w)
  | None =>
      match disk (host w) !! path with
      | Some _ => (Normal tt, withHost (withDisk (delete path)) w)
      | None => (Throw (ErrnoException "ENOENT"), w)
      end
  end.

End Fs.

(** [vscode.workspace] and [TextDocument].  A document is named by its
    path; a position is an offset into its text. *)
Module Vscode.

Record WorkspaceEdit := mkEdit {
  editUri : Uri;
  rangeStart : nat;
  rangeEnd : nat;
  newText : string
}.

Definition lookupDocument (path : string) (docs : list (string * string)) : option string :=
  snd <$> List.find (λ doc, bool_decide (doc.1 = path)) docs.

(** [workspace.textDocuments.find(doc => doc.uri.fsPath === path)], as the
    text [getText()] would give. *)
Definition findTextDocument (path : string) : M (option string) :=
  gets (λ w, lookupDocument path (textDocuments (host w))).

(** [document.getText()]. *)
Definition getText (path : string) : M string :=
  gets (λ w, default "" (lookupDocument path (textDocuments (host w)))).

(** [workspace.openTextDocument(uri)]: the document if it is loaded,
    otherwise it is loaded from disk, which fails for a missing file. *)
Definition openTextDocument (uri : Uri) : M string := λ w,
  let path := fsPath uri in
  match lookupDocument path (textDocuments (host w)) with
  | Some _ => (Normal path, w)
  | None =>
      if decide (path ∈ openTextDocumentError (host w)) then (Throw HostError, w)
      else match disk (host w) !! path with
           | Some content =>
               (Normal path, withHost (withTextDocuments (λ docs, (docs ++ [(path, content)])%list)) w)
           | None => (Throw HostError, w)
           end
  end.

Definition replaceRange (text : string) (start stop : nat) (new : string) : string :=
  substring 0 start text +:+ new +:+ substring stop (String.length text - stop) text.

Definition editDocument (e : WorkspaceEdit) (doc : string * string) : string * string :=
  if bool_decide (doc.1 = fsPath (editUri e))
  then (doc.1, replaceRange doc.2 (rangeStart e) (rangeEnd e) (newText e))
  else doc.

(** [workspace.applyEdit(edit)] resolves to whether the edit was applied;
    an edit on a document that is not loaded is taken as not applied. *)
Definition applyEdit (e : WorkspaceEdit) : M bool := λ w,
  let path := fsPath (editUri e) in
  match applyEditOutcome (host w) !! path with
  | Some EditThrows => (Throw HostError, w)
  | Some EditRejected => (Normal false, w)
  | _ =>
      match lookupDocument path (textDocuments (host w)) with
      | Some _ => (Normal true, withHost (withTextDocuments (fmap (editDocument e))) w)
      | None => (Normal false, w)
      end
  end.

(** [document.save()] resolves to whether the text reached the disk. *)
Definition save (path : string) : M bool := λ w,
  match saveOutcome (host w) !! path with
  | Some SaveThrows => (Throw HostError, w)
  | Some SaveRefused => (Normal false, w)
  | _ =>
      let text := default "" (lookupDocument path (textDocuments (host w))) in
      (Normal true, withHost (withDisk (insert path text)) w)
  end.

End Vscode.

Definition fire : M unit := modify (emit SnapshotsChanged).
Definition consoleError (message : string) : M unit := modify (emit (ConsoleError message)).
Definition newDate : M nat := gets (λ w, now (host w)).

(** ** SnapshotManager *)

Definition errorCode (e : Error) : option string :=
  match e with
  | ErrnoException code => Some code
  | HostError => None
  end.

(** [private readFileContent(uri)]: [None] is the source's [null]. *)
Definition readFileContent (uri : Uri) : M (option string) :=
  tryCatch
    (openDoc ← Vscode.findTextDocument (fsPath uri);
     match openDoc with
     | Some text => ret (Some text)
     | None => content ← Fs.readFile (fsPath uri); ret (Some content)
     end)
    (λ error,
       if bool_decide (errorCode error = Some "ENOENT") then ret None
       else throw error).

(** [private getRelativePath(uri)]. *)
Definition getRelativePath (uri : Uri) : M string :=
  gets (λ w,
    match workspaceRoot (this w) with
    | Some root => pathRelative (host w) root (fsPath uri)
    | None => pathBasename (host w) (fsPath uri)
    end).

Definition snapshotsHas (key : string) : M bool :=
  gets (λ w, bool_decide (is_Some (snapshots (this w) !! key))).
Definition snapshotsGet (key : string) : M (option FileSnapshot.t) :=
  gets (λ w, snapshots (this w) !! key).
Definition snapshotsSet (key : string) (s : FileSnapshot.t) : M unit :=
  modify (withThis (withSnapshots (insert key s))).
Definition snapshotsDelete (key : string) : M unit :=
  modify (withThis (withSnapshots (delete key))).
Definition deletedFilesHas (key : string) : M bool :=
  gets (λ w, bool_decide (is_Some (deletedFiles (this w) !! key))).
Definition deletedFilesGet (key : string) : M (option FileSnapshot.t) :=
  gets (λ w, deletedFiles (this w) !! key).
Definition deletedFilesSet (key : string) (s : FileSnapshot.t) : M unit :=
  modify (withThis (withDeletedFiles (insert key s))).
Definition deletedFilesDelete (key : string) : M unit :=
  modify (withThis (withDeletedFiles (delete key))).

Definition snapshotFile (uri : Uri) : M unit :=
  tryCatch
    (content ← readFileContent uri;
     match content with
     | None => ret tt
     | Some content =>
         let key := fsPath uri in
         relativePath ← getRelativePath uri;
         has ← snapshotsHas key;
         if has then ret tt
         else
           time ← newDate;
           snapshotsSet key (FileSnapshot.mk uri content time relativePath false);;
           fire
     end)
    (λ error, consoleError "Failed to snapshot file").

Definition autoSnapshotBeforeChange (uri : Uri) : M unit :=
  let key := fsPath uri in
  has ← snapshotsHas key;
  if has then ret tt
  else
    tryCatch
      (content ← readFileContent uri;
       match content with
       | None => ret tt
       | Some content =>
           relativePath ← getRelativePath uri;
           time ← newDate;
           snapshotsSet key (FileSnapshot.mk uri content time relativePath false);;
           fire
       end)
      (λ error, consoleError "Failed to auto-snapshot file").

Definition trackNewFile (uri : Uri) : M unit :=
  let key := fsPath uri in
  has ← snapshotsHas key;
  if has then ret tt
  else
    relativePath ← getRelativePath uri;
    time ← newDate;
    snapshotsSet key (FileSnapshot.mk uri "" time relativePath true);;
    fire.

(** [existingSnapshot?.originalContent ?? lastKnownContent ?? '']. *)
Definition deletionContent (existingSnapshot : option FileSnapshot.t)
    (lastKnownContent : option string) : string :=
  match existingSnapshot with
  | Some s => FileSnapshot.originalContent s
  | None => default "" lastKnownContent
  end.

Definition trackDeletedFile (uri : Uri) (lastKnownContent : option string) : M unit :=
  let key := fsPath uri in
  relativePath ← getRelativePath uri;
  existingSnapshot ← snapshotsGet key;
  let content := deletionContent existingSnapshot lastKnownContent in
  time ← newDate;
  deletedFilesSet key (FileSnapshot.mk uri content time relativePath false);;
  snapshotsDelete key;;
  fire.

Definition snapshotFiles (uris : list Uri) : M unit :=
  forOf uris (λ uri _, snapshotFile uri) tt.

Definition hasSnapshot (uri : Uri) : M bool := snapshotsHas (fsPath uri).
Definition getSnapshot (uri : Uri) : M (option FileSnapshot.t) := snapshotsGet (fsPath uri).

Definition removeSnapshot (uri : Uri) : M unit :=
  snapshotsDelete (fsPath uri);;
  deletedFilesDelete (fsPath uri);;
  fire.

Definition clearAllSnapshots : M unit :=
  modify (withThis (withSnapshots (λ _, ∅)));;
  modify (withThis (withDeletedFiles (λ _, ∅)));;
  fire.

(** The body of the first loop of [getChangedFiles], for one map entry;
    [changes.push(...)] appends to the accumulator. *)
Definition checkSnapshot (entry : string * FileSnapshot.t) (changes : list FileChange.t)
    : M (list FileChange.t) :=
  let '(key, snapshot) := entry in
  tryCatch
    (currentContent ← readFileContent (FileSnapshot.uri snapshot);
     match currentContent with
     | None =>
         if negb (FileSnapshot.isNewFile snapshot) then
           ret (changes ++ [FileChange.mk
                  (FileSnapshot.uri snapshot)
                  (FileSnapshot.relativePath snapshot)
                  (FileSnapshot.originalContent snapshot)
                  ""
                  (FileSnapshot.snapshotTime snapshot)
                  deleted
                  0
                  (length (Js.split (FileSnapshot.originalContent snapshot)))])%list
         else ret changes
     | Some currentContent =>
         if FileSnapshot.isNewFile snapshot then
           let counts := countChanges "" currentContent in
           ret (changes ++ [FileChange.mk
                  (FileSnapshot.uri snapshot)
                  (FileSnapshot.relativePath snapshot)
                  ""
                  currentContent
                  (FileSnapshot.snapshotTime snapshot)
                  created
                  (additions counts)
                  (deletions counts)])%list
         else if bool_decide (currentContent ≠ FileSnapshot.originalContent snapshot) then
           let counts := countChanges (FileSnapshot.originalContent snapshot) currentContent in
           ret (changes ++ [FileChange.mk
                  (FileSnapshot.uri snapshot)
                  (FileSnapshot.relativePath snapshot)
                  (FileSnapshot.originalContent snapshot)
                  currentContent
                  (FileSnapshot.snapshotTime snapshot)
                  modified
                  (additions counts)
                  (deletions counts)])%list
         else ret changes
     end)
    (λ error, consoleError "Error checking changes";; ret changes).

(** The body of the second loop, for one deleted record. *)
Definition pushDeleted (entry : string * FileSnapshot.t) (changes : list FileChange.t)
    : M (list FileChange.t) :=
  let '(key, snapshot) := entry in
  ret (changes ++ [FileChange.mk
         (FileSnapshot.uri snapshot)
         (FileSnapshot.relativePath snapshot)
         (FileSnapshot.originalContent snapshot)
         ""
         (FileSnapshot.snapshotTime snapshot)
         deleted
         0
         (length (Js.split (FileSnapshot.originalContent snapshot)))])%list.

(** [getChangedFiles()].  The maps are walked in the order [map_to_list]
    gives, not the insertion order of a JavaScript [Map]; the properties
    below are about which entries are produced. *)
Definition getChangedFiles : M (list FileChange.t) :=
  tracked ← gets (λ w, map_to_list (snapshots (this w)));
  changes ← forOf tracked checkSnapshot [];
  removed ← gets (λ w, map_to_list (deletedFiles (this w)));
  forOf removed pushDeleted changes.

Definition revertFile (uri : Uri) : M bool :=
  let key := fsPath uri in
  deletedSnapshot ← deletedFilesGet key;
  match deletedSnapshot with
  | Some deletedSnapshot =>
      tryCatch
        (Fs.writeFile (fsPath uri) (FileSnapshot.originalContent deletedSnapshot);;
         deletedFilesDelete key;;
         fire;;
         ret true)
        (λ error, consoleError "Failed to restore deleted file";; ret false)
  | None =>
      snapshot ← snapshotsGet key;
      match snapshot with
      | None => ret false
      | Some snapshot =>
          tryCatch
            (if FileSnapshot.isNewFile snapshot then
               tryCatch (Fs.unlink (fsPath uri)) (λ e, ret tt);;
               removeSnapshot uri;;
               ret true
             else
               document ← Vscode.openTextDocument uri;
               text ← Vscode.getText document;
               let edit := Vscode.mkEdit uri 0 (String.length text)
                             (FileSnapshot.originalContent snapshot) in
               success ← Vscode.applyEdit edit;
               (if success then
                  Vscode.save document;;
                  removeSnapshot uri
                else ret tt);;
               ret success)
            (λ error, consoleError "Failed to revert file";; ret false)
      end
  end.

Definition acceptFile (uri : Uri) : M unit := removeSnapshot uri.

(** [acceptAndUpdateBaseline(uri, updateCacheCallback?)]; the callback is
    any computation of the caller's. *)
Definition acceptAndUpdateBaseline (uri : Uri)
    (updateCacheCallback : option (Uri → string → M unit)) : M unit :=
  let key := fsPath uri in
  isDeleted ← deletedFilesHas key;
  if isDeleted then
    deletedFilesDelete key;;
    fire
  else
    snapshot ← snapshotsGet key;
    match snapshot with
    | None => ret tt
    | Some snapshot =>
        tryCatch
          (currentContent ← readFileContent uri;
           match currentContent with
           | Some currentContent =>
               match updateCacheCallback with
               | Some callback => callback uri currentContent
               | None => ret tt
               end
           | None => ret tt
           end;;
           snapshotsDelete key;;
           fire)
          (λ error, consoleError "Failed to accept and update baseline")
    end.

Definition getSnapshotCount : M nat :=
  gets (λ w, size (snapshots (this w)) + size (deletedFiles (this w))).

Definition getAllSnapshots : M (list FileSnapshot.t) :=
  gets (λ w, (map_to_list (snapshots (this w))).*2).

(** ** Sequences of operations on the store *)

Inductive Operation :=
  | SnapshotFile (uri : Uri)
  | AutoSnapshotBeforeChange (uri : Uri)
  | TrackNewFile (uri : Uri)
  | TrackDeletedFile (uri : Uri) (lastKnownContent : option string)
  | AcceptFile (uri : Uri)
  | AcceptAndUpdateBaseline (uri : Uri)
  | RevertFile (uri : Uri)
  | RemoveSnapshot (uri : Uri)
  | ClearAllSnapshots.

Definition perform (op : Operation) : M unit :=
  match op with
  | SnapshotFile uri => snapshotFile uri
  | AutoSnapshotBeforeChange uri => autoSnapshotBeforeChange uri
  | TrackNewFile uri => trackNewFile uri
  | TrackDeletedFile uri lastKnownContent => trackDeletedFile uri lastKnownContent
  | AcceptFile uri => acceptFile uri
  | AcceptAndUpdateBaseline uri => acceptAndUpdateBaseline uri None
  | RevertFile uri => revertFile uri;; ret tt
  | RemoveSnapshot uri => removeSnapshot uri
  | ClearAllSnapshots => clearAllSnapshots
  end.

Definition performAll (ops : list Operation) : M unit :=
  forOf ops (λ op _, perform op) tt.

(** A manager as the constructor leaves it, and a host with nothing open,
    an empty disk and no faults. *)
Definition newManager (root : option string) : SnapshotManager := mkManager ∅ ∅ root.

Definition quietHost : Host :=
  mkHost [] ∅ ∅ ∅ ∅ ∅ ∅ ∅ (λ _ path, path) (λ path, path) 0.

Definition initial : World := mkWorld (newManager None) quietHost [].

(** Which entries of a change list belong to a file. *)
Definition entriesFor (key : string) (changes : list FileChange.t) : list FileChange.t :=
  filter (λ c, fsPath (FileChange.uri c) = key) changes.

(** What [readFileContent] gives for a file in a world. *)
Definition observe (uri : Uri) (w : World) : Completion (option string) :=
  (readFileContent uri w).1.

(** The same reading as a function of the host alone; [observe_host_only]
    below shows the two agree. *)
Definition contentOn (h : Host) (uri : Uri) : Completion (option string) :=
  match Vscode.lookupDocument (fsPath uri) (textDocuments h) with
  | Some text => Normal (Some text)
  | None =>
      match readFileError h !! fsPath uri with
      | Some code =>
          if bool_decide (code = "ENOENT") then Normal None
          else Throw (ErrnoException code)
      | None =>
          match disk h !! fsPath uri with
          | Some content => Normal (Some content)
          | None => Normal None
          end
      end
  end.

(** The entry made from a deleted record. *)
Definition deletedChange (snapshot : FileSnapshot.t) : FileChange.t :=
  FileChange.mk (FileSnapshot.uri snapshot) (FileSnapshot.relativePath snapshot)
    (FileSnapshot.originalContent snapshot) "" (FileSnapshot.snapshotTime snapshot)
    deleted 0 (length (Js.split (FileSnapshot.originalContent snapshot))).

Definition createdChange (snapshot : FileSnapshot.t) (currentContent : string) : FileChange.t :=
  FileChange.mk (FileSnapshot.uri snapshot) (FileSnapshot.relativePath snapshot)
    "" currentContent (FileSnapshot.snapshotTime snapshot) created
    (additions (countChanges "" currentContent))
    (deletions (countChanges "" currentContent)).

Definition modifiedChange (snapshot : FileSnapshot.t) (currentContent : string) : FileChange.t :=
  FileChange.mk (FileSnapshot.uri snapshot) (FileSnapshot.relativePath snapshot)
    (FileSnapshot.originalContent snapshot) currentContent
    (FileSnapshot.snapshotTime snapshot) modified
    (additions (countChanges (FileSnapshot.originalContent snapshot) currentContent))
    (deletions (countChanges (FileSnapshot.originalContent snapshot) currentContent)).

(** The entries one baseline contributes, by what reading its file gave. *)
Definition changesOf (read : Completion (option string)) (snapshot : FileSnapshot.t)
    : list FileChange.t :=
  match read with
  | Normal None =>
      if FileSnapshot.isNewFile snapshot then [] else [deletedChange snapshot]
  | Normal (Some currentContent) =>
      if FileSnapshot.isNewFile snapshot then [createdChange snapshot currentContent]
      else if bool_decide (currentContent ≠ FileSnapshot.originalContent snapshot)
           then [modifiedChange snapshot currentContent]
           else []
  | Throw _ => []
  end.

(** The change list of a world, as a function of its maps and host. *)
Definition changeList (w : World) : list FileChange.t :=
  (map_to_list (snapshots (this w)) ≫= λ entry,
     changesOf (observe (FileSnapshot.uri entry.2) w) entry.2)
  ++ (deletedChange ∘ snd <$> map_to_list (deletedFiles (this w))).

(** Every record sits under the path of its own [uri]. *)
Definition wellKeyed (m : SnapshotManager) : Prop :=
  map_Forall (λ key s, fsPath (FileSnapshot.uri s) = key) (snapshots m) ∧
  map_Forall (λ key s, fsPath (FileSnapshot.uri s) = key) (deletedFiles m).

#[global] Instance wellKeyed_dec m : Decision (wellKeyed m).
Proof. unfold wellKeyed. apply _. Defined.

(** No path is a key of both maps. *)
Definition exclusive (m : SnapshotManager) : Prop :=
  snapshots m ##ₘ deletedFiles m.

(** The operations that add a baseline. *)
Definition isCapture (op : Operation) : bool :=
  match op with
  | SnapshotFile _ | AutoSnapshotBeforeChange _ | TrackNewFile _ => true
  | _ => false
  end.

(** An operation left the maps and the host alone; it may have logged. *)
Definition sameState (w w' : World) : Prop :=
  this w' = this w ∧ host w' = host w.

(** ** When a revert cannot go through

    The I/O of [revertFile] that can fail.  For a deleted record: the
    [writeFile] that recreates the file.  For a baseline of an existing
    file: opening the document, applying the replacement (rejected, or
    throwing), and the [save], which throws or resolves to [false] when the
    text does not reach the disk.  For a new file: the [unlink], refused
    for another reason than the file being absent already. *)

#[global] Instance EditOutcome_eq_dec : EqDecision EditOutcome.
Proof. solve_decision. Defined.

#[global] Instance SaveOutcome_eq_dec : EqDecision SaveOutcome.
Proof. solve_decision. Defined.

Definition writeRefused (w : World) (uri : Uri) : Prop :=
  is_Some (writeFileError (host w) !! fsPath uri).

(** The replacement stops with an exception or a rejected edit. *)
Definition replacementRejected (w : World) (uri : Uri) : Prop :=
  let path := fsPath uri in
  (Vscode.lookupDocument path (textDocuments (host w)) = None ∧
   (path ∈ openTextDocumentError (host w) ∨ disk (host w) !! path = None)) ∨
  applyEditOutcome (host w) !! path = Some EditRejected ∨
  applyEditOutcome (host w) !! path = Some EditThrows ∨
  saveOutcome (host w) !! path = Some SaveThrows.

(** [save] resolves to [false]. *)
Definition saveRefused (w : World) (uri : Uri) : Prop :=
  saveOutcome (host w) !! fsPath uri = Some SaveRefused.

(** The replacement of the file's content is not committed. *)
Definition replacementRefused (w : World) (uri : Uri) : Prop :=
  replacementRejected w uri ∨ saveRefused w uri.

Definition unlinkRefused (w : World) (uri : Uri) : Prop :=
  match unlinkError (host w) !! fsPath uri with
  | Some code => code ≠ "ENOENT"
  | None => False
  end.

(** The I/O that [revertFile] needs for the record it finds fails. *)
Definition revertFails (w : World) (uri : Uri) : Prop :=
  match deletedFiles (this w) !! fsPath uri with
  | Some _ => writeRefused w uri
  | None =>
      match snapshots (this w) !! fsPath uri with
      | Some baseline =>
          if FileSnapshot.isNewFile baseline then unlinkRefused w uri
          else replacementRefused w uri
      | None => False
      end
  end.

(** The failures among them that reach one of the two outer [catch]
    blocks of [revertFile] or make [applyEdit] resolve to [false]. *)
Definition failureNoticed (w : World) (uri : Uri) : Prop :=
  match deletedFiles (this w) !! fsPath uri with
  | Some _ => writeRefused w uri
  | None =>
      match snapshots (this w) !! fsPath uri with
      | Some baseline =>
          FileSnapshot.isNewFile baseline = false ∧ replacementRejected w uri
      | None => False
      end
  end.

#[global] Instance revertFails_dec w uri : Decision (revertFails w uri).
Proof.
  unfold revertFails, writeRefused, unlinkRefused, replacementRefused,
    replacementRejected, saveRefused.
  repeat case_match; apply _.
Defined.

#[global] Instance failureNoticed_dec w uri : Decision (failureNoticed w uri).
Proof.
  unfold failureNoticed, writeRefused, replacementRejected.
  repeat case_match; apply _.
Defined.

(** ** The rest of the manager *)

(** [snapshotAllOpenFiles()]: the body of its loop, then the method.  The
    host's documents carry a path and a text only, so the test
    [doc.uri.scheme === 'file' && !doc.isUntitled] of the [filter] is a
    parameter. *)
Definition snapshotIfMissing (doc : string * string) (count : nat) : M nat :=
  has ← snapshotsHas doc.1;
  if negb has then
    snapshotFile (mkUri doc.1);;
    ret (S count)
  else ret count.

Definition snapshotAllOpenFiles (isSavedFile : string * string → bool) : M nat :=
  openDocuments ← gets (λ w, List.filter isSavedFile (textDocuments (host w)));
  forOf openDocuments snapshotIfMissing 0.

(** The entries a path has in a change list made from a manager whose
    records sit under their own paths: at most one from each map. *)
Definition entriesOfPath (key : string) (w : World) : list FileChange.t :=
  match snapshots (this w) !! key with
  | Some snapshot => changesOf (observe (FileSnapshot.uri snapshot) w) snapshot
  | None => []
  end ++
  match deletedFiles (this w) !! key with
  | Some record => [deletedChange record]
  | None => []
  end.

(** The baseline a capture of [content] makes in a world. *)
Definition capturedBaseline (uri : Uri) (content : string) (isNew : bool) (w : World)
    : FileSnapshot.t :=
  FileSnapshot.mk uri content (now (host w))
    (match workspaceRoot (this w) with
     | Some root => pathRelative (host w) root (fsPath uri)
     | None => pathBasename (host w) (fsPath uri)
     end)
    isNew.

(** ** Strings of the watcher and the views *)

Module JsString.

(** [s.replace(/c/g, by)] for a one-character pattern. *)
Fixpoint replaceChar (c : ascii) (by_ : string) (s : string) : string :=
  match s with
  | EmptyString => EmptyString
  | String c' rest =>
      if Ascii.eqb c' c then by_ +:+ replaceChar c by_ rest
      else String c' (replaceChar c by_ rest)
  end.

(** [s.replace(/\*\*/g, '')]: matches are taken from the left and do not
    overlap. *)
Fixpoint removeDoubleStars (s : string) : string :=
  match s with
  | EmptyString => EmptyString
  | String c rest =>
      match rest with
      | String c' rest' =>
          if Ascii.eqb c "*" && Ascii.eqb c' "*" then removeDoubleStars rest'
          else String c (removeDoubleStars rest)
      | EmptyString => String c EmptyString
      end
  end.

(** [s.includes(sub)]. *)
Fixpoint includes (s sub : string) : bool :=
  String.prefix sub s ||
  match s with
  | EmptyString => false
  | String _ rest => includes rest sub
  end.

(** A string as a condition: empty is falsy. *)
Definition truthy (s : string) : bool :=
  match s with
  | EmptyString => false
  | String _ _ => true
  end.

End JsString.

(** ** FileWatcher *)

(** What [getConfiguration('pendingChanges')] holds of the two settings the
    watcher reads; [None] is a setting left unset. *)
Record Configuration := mkConfiguration {
  watchPatternsSetting : option (list string);
  excludePatternsSetting : option (list string)
}.

(** The subscriptions the watcher keeps in [this.disposables]. *)
Inductive Listener :=
  | ConfigurationListener
  | ChangeTextDocumentListener
  | OpenTextDocumentListener
  | WillSaveTextDocumentListener
  | SaveTextDocumentListener.

#[global] Instance Listener_eq_dec : EqDecision Listener.
Proof. solve_decision. Defined.

(** The fields of [class FileWatcher]; a [FileSystemWatcher] is named by its
    glob pattern; the two emitters are the lists of what they fired. *)
Record FileWatcher := mkFileWatcher {
  watchers : list string;
  isTracking : bool;
  config : Configuration;
  disposables : list Listener;
  fileContentCache : gmap string string;
  onTrackingChanged : list bool;
  onFileChanged : list Uri
}.

(** The manager's world with the watcher beside it.  [workspaceConfiguration]
    is what the host's configuration holds now and [schemeOf] the
    [uri.scheme] of the document at a path. *)
Record Session := mkSession {
  world : World;
  fileWatcher : FileWatcher;
  workspaceConfiguration : Configuration;
  schemeOf : string → string
}.

Definition withWorld (f : World → World) (s : Session) : Session :=
  mkSession (f (world s)) (fileWatcher s) (workspaceConfiguration s) (schemeOf s).

Definition withFileWatcher (f : FileWatcher → FileWatcher) (s : Session) : Session :=
  mkSession (world s) (f (fileWatcher s)) (workspaceConfiguration s) (schemeOf s).

Definition withCache (f : gmap string string → gmap string string) (fw : FileWatcher)
    : FileWatcher :=
  mkFileWatcher (watchers fw) (isTracking fw) (config fw) (disposables fw)
    (f (fileContentCache fw)) (onTrackingChanged fw) (onFileChanged fw).

Definition withIsTracking (b : bool) (fw : FileWatcher) : FileWatcher :=
  mkFileWatcher (watchers fw) b (config fw) (disposables fw)
    (fileContentCache fw) (onTrackingChanged fw) (onFileChanged fw).

Definition withTrackingChanged (b : bool) (fw : FileWatcher) : FileWatcher :=
  mkFileWatcher (watchers fw) (isTracking fw) (config fw) (disposables fw)
    (fileContentCache fw) (onTrackingChanged fw ++ [b])%list (onFileChanged fw).

Definition withWatchers (f : list string → list string) (fw : FileWatcher) : FileWatcher :=
  mkFileWatcher (f (watchers fw)) (isTracking fw) (config fw) (disposables fw)
    (fileContentCache fw) (onTrackingChanged fw) (onFileChanged fw).

Definition withDisposables (f : list Listener → list Listener) (fw : FileWatcher)
    : FileWatcher :=
  mkFileWatcher (watchers fw) (isTracking fw) (config fw) (f (disposables fw))
    (fileContentCache fw) (onTrackingChanged fw) (onFileChanged fw).

Definition withConfig (c : Configuration) (fw : FileWatcher) : FileWatcher :=
  mkFileWatcher (watchers fw) (isTracking fw) c (disposables fw)
    (fileContentCache fw) (onTrackingChanged fw) (onFileChanged fw).

Definition withFileChanged (uri : Uri) (fw : FileWatcher) : FileWatcher :=
  mkFileWatcher (watchers fw) (isTracking fw) (config fw) (disposables fw)
    (fileContentCache fw) (onTrackingChanged fw) (onFileChanged fw ++ [uri])%list.

(** Computations of the watcher and the commands: the same completions,
    over a session. *)
Definition W (A : Type) : Type := Session → Completion A * Session.

Module InSession.

Definition ret {A} (a : A) : W A := λ s, (Normal a, s).

Definition bind {A B} (m : W A) (f : A → W B) : W B := λ s,
  match m s with
  | (Normal a, s') => f a s'
  | (Throw e, s') => (Throw e, s')
  end.

Definition tryCatch {A} (body : W A) (handler : Error → W A) : W A := λ s,
  match body s with
  | (Normal a, s') => (Normal a, s')
  | (Throw e, s') => handler e s'
  end.

Definition gets {A} (f : Session → A) : W A := λ s, (Normal (f s), s).
Definition modify (f : Session → Session) : W unit := λ s, (Normal tt, f s).

(** A call into the manager. *)
Definition call {A} (m : M A) : W A := λ s,
  let '(r, w) := m (world s) in (r, withWorld (λ _, w) s).

Fixpoint forOf {A S} (items : list A) (body : A → S → W S) (acc : S) : W S :=
  match items with
  | [] => ret acc
  | x :: rest => bind (body x acc) (forOf rest body)
  end.

End InSession.

Declare Scope W_scope.
Delimit Scope W_scope with W.
Bind Scope W_scope with W.
Notation "x ← m ; k" := (InSession.bind m (λ x, k))
  (at level 20, m at level 100, k at level 200, only parsing) : W_scope.
Notation "m ;; k" := (InSession.bind m (λ _, k))
  (at level 100, k at level 200, right associativity, only parsing) : W_scope.

(** [acceptAndUpdateBaseline] again, written over a session so that the
    callback can reach the watcher; [acceptAndUpdateBaseline_agrees] shows
    it is the manager's method whenever the callback stays in the world. *)
Definition acceptAndUpdateBaselineInSession (uri : Uri)
    (updateCacheCallback : option (Uri → string → W unit)) : W unit :=
  (let key := fsPath uri in
   isDeleted ← InSession.call (deletedFilesHas key);
   if isDeleted then
     InSession.call (deletedFilesDelete key);;
     InSession.call fire
   else
     snapshot ← InSession.call (snapshotsGet key);
     match snapshot with
     | None => InSession.ret tt
     | Some snapshot =>
         InSession.tryCatch
           (currentContent ← InSession.call (readFileContent uri);
            match currentContent with
            | Some currentContent =>
                match updateCacheCallback with
                | Some callback => callback uri currentContent
                | None => InSession.ret tt
                end
            | None => InSession.ret tt
            end;;
            InSession.call (snapshotsDelete key);;
            InSession.call fire)
           (λ error,
              InSession.call (consoleError "Failed to accept and update baseline"))
     end)%W.

Definition updateWatcher (f : FileWatcher → FileWatcher) : W unit :=
  InSession.modify (withFileWatcher f).

(** [updateFileCache(uri, content)] and [getCachedContent(uri)]. *)
Definition updateFileCache (uri : Uri) (content : string) : W unit :=
  updateWatcher (withCache (insert (fsPath uri) content)).

Definition getCachedContent (uri : Uri) : W (option string) :=
  InSession.gets (λ s, fileContentCache (fileWatcher s) !! fsPath uri).

Definition getIsTracking : W bool :=
  InSession.gets (λ s, isTracking (fileWatcher s)).

(** The three [replace] calls that clean a pattern in [shouldExclude]. *)
Definition cleanPattern (pattern : string) : string :=
  JsString.replaceChar "/" ""
    (JsString.replaceChar "*" "" (JsString.removeDoubleStars pattern)).

(** The loop of [shouldExclude] over the patterns, for a path. *)
Definition excludedBy (excludePatterns : list string) (fsPath : string) : bool :=
  let filePath := JsString.replaceChar "\" "/" fsPath in
  existsb
    (λ pattern,
       let cleanPattern := cleanPattern pattern in
       JsString.truthy cleanPattern && JsString.includes filePath cleanPattern)
    excludePatterns.

(** [private shouldExclude(uri)]; the setting defaults to no pattern. *)
Definition shouldExclude (uri : Uri) : W bool :=
  InSession.gets (λ s,
    excludedBy (default [] (excludePatternsSetting (config (fileWatcher s)))) (fsPath uri)).

(** [(snapshot as any).originalContent = cachedContent]: the object is the
    one the map holds, so the map's record changes. *)
Definition setOriginalContent (key content : string) : M unit :=
  modify (withThis (withSnapshots (alter
    (λ snapshot,
       FileSnapshot.mk (FileSnapshot.uri snapshot) content
         (FileSnapshot.snapshotTime snapshot) (FileSnapshot.relativePath snapshot)
         (FileSnapshot.isNewFile snapshot))
    key))).

(** The capture both [handleFileModified] and the will-save listener make:
    [autoSnapshotBeforeChange], then the cached text put in place of what it
    read. *)
Definition snapshotFromCache (uri : Uri) (cachedContent : string) : W unit :=
  (InSession.call (autoSnapshotBeforeChange uri);;
   snapshot ← InSession.call (getSnapshot uri);
   match snapshot with
   | Some _ => InSession.call (setOriginalContent (fsPath uri) cachedContent)
   | None => InSession.ret tt
   end)%W.

Definition fireFileChanged (uri : Uri) : W unit := updateWatcher (withFileChanged uri).

Definition handleFileModified (uri : Uri) : W unit :=
  (excluded ← shouldExclude uri;
   if excluded then InSession.ret tt
   else
     has ← InSession.call (hasSnapshot uri);
     (if negb has then
        cachedContent ← getCachedContent uri;
        match cachedContent with
        | Some cachedContent => snapshotFromCache uri cachedContent
        | None => InSession.ret tt
        end
      else InSession.ret tt);;
     fireFileChanged uri)%W.

Definition handleFileCreated (uri : Uri) : W unit :=
  (excluded ← shouldExclude uri;
   if excluded then InSession.ret tt
   else
     InSession.call (trackNewFile uri);;
     fireFileChanged uri)%W.

Definition handleFileDeleted (uri : Uri) : W unit :=
  (excluded ← shouldExclude uri;
   if excluded then InSession.ret tt
   else
     cachedContent ← getCachedContent uri;
     InSession.call (trackDeletedFile uri cachedContent);;
     updateWatcher (withCache (delete (fsPath uri)));;
     fireFileChanged uri)%W.

Definition isFileScheme (path : string) : W bool :=
  InSession.gets (λ s, bool_decide (schemeOf s path = "file")).

Definition documentText (path : string) : W string :=
  InSession.call (Vscode.getText path).

(** The four document listeners of [setupDocumentListeners], for the
    document at [path]. *)
Definition onDidChangeTextDocument (path : string) : W unit :=
  (tracking ← getIsTracking;
   if negb tracking then InSession.ret tt
   else
     isFile ← isFileScheme path;
     if negb isFile then InSession.ret tt
     else
       excluded ← shouldExclude (mkUri path);
       if excluded then InSession.ret tt
       else InSession.ret tt)%W.

Definition onDidOpenTextDocument (path : string) : W unit :=
  (tracking ← getIsTracking;
   if negb tracking then InSession.ret tt
   else
     isFile ← isFileScheme path;
     if negb isFile then InSession.ret tt
     else
       excluded ← shouldExclude (mkUri path);
       if excluded then InSession.ret tt
       else
         text ← documentText path;
         updateWatcher (withCache (insert path text)))%W.

Definition onWillSaveTextDocument (path : string) : W unit :=
  (tracking ← getIsTracking;
   if negb tracking then InSession.ret tt
   else
     isFile ← isFileScheme path;
     if negb isFile then InSession.ret tt
     else
       excluded ← shouldExclude (mkUri path);
       if excluded then InSession.ret tt
       else
         cachedContent ← getCachedContent (mkUri path);
         currentContent ← documentText path;
         has ← InSession.call (hasSnapshot (mkUri path));
         match cachedContent with
         | Some cachedContent =>
             if bool_decide (cachedContent ≠ currentContent) && negb has
             then snapshotFromCache (mkUri path) cachedContent
             else InSession.ret tt
         | None => InSession.ret tt
         end)%W.

Definition onDidSaveTextDocument (path : string) : W unit :=
  (tracking ← getIsTracking;
   if negb tracking then InSession.ret tt
   else
     isFile ← isFileScheme path;
     if negb isFile then InSession.ret tt
     else
       has ← InSession.call (hasSnapshot (mkUri path));
       if negb has then
         text ← documentText path;
         updateWatcher (withCache (insert path text))
       else InSession.ret tt)%W.

(** [setupWatchers()]: one watcher per pattern, [**/*] when the setting is
    unset. *)
Definition setupWatchers : W unit :=
  (watchPatterns ← InSession.gets (λ s,
     default ["**/*"] (watchPatternsSetting (config (fileWatcher s))));
   InSession.forOf watchPatterns
     (λ pattern _, updateWatcher (withWatchers (λ ws, ws ++ [pattern])%list)) tt)%W.

(** [setupDocumentListeners()]: the four listeners are subscribed, then the
    text of every open file document that is not excluded is cached. *)
Definition setupDocumentListeners : W unit :=
  (updateWatcher (withDisposables (λ ds,
     ds ++ [ChangeTextDocumentListener; OpenTextDocumentListener;
            WillSaveTextDocumentListener; SaveTextDocumentListener])%list);;
   textDocuments ← InSession.gets (λ s, textDocuments (host (world s)));
   InSession.forOf textDocuments
     (λ doc _,
        isFile ← isFileScheme doc.1;
        excluded ← shouldExclude (mkUri doc.1);
        if isFile && negb excluded
        then updateWatcher (withCache (insert doc.1 doc.2))
        else InSession.ret tt)
     tt)%W.

(** [disposeWatchers()] disposes the watchers and everything in
    [this.disposables]. *)
Definition disposeWatchers : W unit :=
  (updateWatcher (withWatchers (λ _, []));;
   updateWatcher (withDisposables (λ _, [])))%W.

Definition restartWatchers : W unit :=
  (disposeWatchers;;
   setupWatchers)%W.

(** [startTracking()] and [stopTracking()]; the [setContext] command they
    send to the host has no part in the state kept here. *)
Definition startTracking : W unit :=
  (tracking ← getIsTracking;
   if tracking then InSession.ret tt
   else
     updateWatcher (withIsTracking true);;
     setupWatchers;;
     setupDocumentListeners;;
     updateWatcher (withTrackingChanged true))%W.

Definition stopTracking : W unit :=
  (tracking ← getIsTracking;
   if negb tracking then InSession.ret tt
   else
     updateWatcher (withIsTracking false);;
     disposeWatchers;;
     updateWatcher (withCache (λ _, ∅));;
     updateWatcher (withTrackingChanged false))%W.

(** The listener the constructor subscribes. *)
Definition onDidChangeConfiguration (affectsPendingChanges : bool) : W unit :=
  (if affectsPendingChanges then
     current ← InSession.gets workspaceConfiguration;
     updateWatcher (withConfig current);;
     tracking ← getIsTracking;
     if tracking then restartWatchers else InSession.ret tt
   else InSession.ret tt)%W.

(** [new FileWatcher(snapshotManager)]. *)
Definition newFileWatcher (current : Configuration) : FileWatcher :=
  mkFileWatcher [] false current [ConfigurationListener] ∅ [] [].

(** What the host tells the watcher.  A document notification names the
    document by its path; a file-system one comes from the watcher of a
    pattern. *)
Inductive Notification :=
  | DidChangeConfiguration (affectsPendingChanges : bool)
  | DidChangeTextDocument (path : string)
  | DidOpenTextDocument (path : string)
  | WillSaveTextDocument (path : string)
  | DidSaveTextDocument (path : string)
  | WatcherDidChange (pattern : string) (uri : Uri)
  | WatcherDidCreate (pattern : string) (uri : Uri)
  | WatcherDidDelete (pattern : string) (uri : Uri).

Definition whenSubscribed (l : Listener) (handler : W unit) : W unit :=
  (live ← InSession.gets (λ s, bool_decide (l ∈ disposables (fileWatcher s)));
   if live then handler else InSession.ret tt)%W.

Definition whenWatching (pattern : string) (handler : W unit) : W unit :=
  (live ← InSession.gets (λ s, bool_decide (pattern ∈ watchers (fileWatcher s)));
   if live then handler else InSession.ret tt)%W.

(** A notification reaches its handler only through a subscription or a
    watcher that has not been disposed. *)
Definition deliver (n : Notification) : W unit :=
  match n with
  | DidChangeConfiguration affects =>
      whenSubscribed ConfigurationListener (onDidChangeConfiguration affects)
  | DidChangeTextDocument path =>
      whenSubscribed ChangeTextDocumentListener (onDidChangeTextDocument path)
  | DidOpenTextDocument path =>
      whenSubscribed OpenTextDocumentListener (onDidOpenTextDocument path)
  | WillSaveTextDocument path =>
      whenSubscribed WillSaveTextDocumentListener (onWillSaveTextDocument path)
  | DidSaveTextDocument path =>
      whenSubscribed SaveTextDocumentListener (onDidSaveTextDocument path)
  | WatcherDidChange pattern uri => whenWatching pattern (handleFileModified uri)
  | WatcherDidCreate pattern uri => whenWatching pattern (handleFileCreated uri)
  | WatcherDidDelete pattern uri => whenWatching pattern (handleFileDeleted uri)
  end.

(** The path a notification is about, if it is about one. *)
Definition subject (n : Notification) : option string :=
  match n with
  | DidChangeConfiguration _ => None
  | DidChangeTextDocument path | DidOpenTextDocument path
  | WillSaveTextDocument path | DidSaveTextDocument path => Some path
  | WatcherDidChange _ uri | WatcherDidCreate _ uri | WatcherDidDelete _ uri =>
      Some (fsPath uri)
  end.

(** ** Commands of the extension *)

(** [acceptFile(item)] once the [uri] is known: the callback it passes is
    the watcher's [updateFileCache]. *)
Definition acceptFileCommand (uri : Uri) : W unit :=
  acceptAndUpdateBaselineInSession uri (Some (λ u content, updateFileCache u content)).

(** [acceptAllFiles()]; [answer] is what the confirmation dialog returned. *)
Definition acceptAllFiles (answer : option string) : W unit :=
  (changes ← InSession.call getChangedFiles;
   if bool_decide (length changes = 0) then InSession.ret tt
   else if bool_decide (answer = Some "Accept All") then
     InSession.forOf changes
       (λ change _, acceptFileCommand (FileChange.uri change)) tt
   else InSession.ret tt)%W.

(** [discardAllFiles()]. *)
Definition discardAllFiles (answer : option string) : W unit :=
  (changes ← InSession.call getChangedFiles;
   if bool_decide (length changes = 0) then InSession.ret tt
   else if bool_decide (answer = Some "Revert All") then
     InSession.forOf changes
       (λ change _, InSession.call (revertFile (FileChange.uri change));; InSession.ret tt) tt
   else InSession.ret tt)%W.

(** ** Sequences with the host changing in between *)

Inductive Step :=
  | Perform (op : Operation)
  | HostBecomes (h : Host).

Definition step (s : Step) : M unit :=
  match s with
  | Perform op => perform op
  | HostBecomes h => modify (withHost (λ _, h))
  end.

Definition steps (l : list Step) : M unit :=
  forOf l (λ s _, step s) tt.

(** ** Reference notions for the strings *)

(** The characters of a string that pass a test, in order. *)
Fixpoint keepWhere (keep : ascii → bool) (s : string) : string :=
  match s with
  | EmptyString => EmptyString
  | String c rest =>
      if keep c then String c (keepWhere keep rest) else keepWhere keep rest
  end.

Definition notStarOrSlash (c : ascii) : bool :=
  negb (Ascii.eqb c "*") && negb (Ascii.eqb c "/").

(** [sub] occurs in [s]. *)
Definition occursIn (sub s : string) : Prop :=
  ∃ before after, s = before +:+ sub +:+ after.

(** ** Text shown in the webviews *)

Definition doubleQuote : ascii := "034"%char.

(** treeViewProvider.ts *)
Module PendingChangesWebviewProvider.

Definition escapeHtml (text : string) : string :=
  JsString.replaceChar doubleQuote "&quot;"
    (JsString.replaceChar ">" "&gt;"
       (JsString.replaceChar "<" "&lt;"
          (JsString.replaceChar "&" "&amp;" text))).

End PendingChangesWebviewProvider.

(** panelProvider.ts *)
Module PendingChangesPanelProvider.

Definition _escapeHtml (text : string) : string :=
  JsString.replaceChar "'" "&#039;"
    (JsString.replaceChar doubleQuote "&quot;"
       (JsString.replaceChar ">" "&gt;"
          (JsString.replaceChar "<" "&lt;"
             (JsString.replaceChar "&" "&amp;" text)))).

End PendingChangesPanelProvider.

(** The text in which every character is replaced by a string of its own,
    and the string an escape gives to a character: what the escapes are
    compared with. *)
Fixpoint eachChar (f : ascii → string) (s : string) : string :=
  match s with
  | EmptyString => EmptyString
  | String c rest => f c +:+ eachChar f rest
  end.

Definition entity (apostrophe : bool) (c : ascii) : string :=
  if Ascii.eqb c "&" then "&amp;"
  else if Ascii.eqb c "<" then "&lt;"
  else if Ascii.eqb c ">" then "&gt;"
  else if Ascii.eqb c doubleQuote then "&quot;"
  else if apostrophe && Ascii.eqb c "'" then "&#039;"
  else String c "".

(** ** Scenarios

    Worlds reached by running operations from [initial], used to evaluate
    the code on concrete inputs. *)

Definition fileF : Uri := mkUri "/w/f.txt".

Definition onDisk (path content : string) (w : World) : World :=
  withHost (withDisk (insert path content)) w.

Definition run {A} (m : M A) (w : World) : World := (m w).2.

(** [fileF] is deleted and then created again: the watcher's delete and
    create notifications, in that order. *)
Definition deletedThenCreated : World :=
  run (performAll [TrackDeletedFile fileF (Some "x"); TrackNewFile fileF]) initial.

(** A new file is registered and is (no longer) on disk. *)
Definition createdAndGone : World := run (trackNewFile fileF) initial.

(** A new file is registered and holds some text. *)
Definition createdWithText : World := onDisk "/w/f.txt" "hello" createdAndGone.

(** [fileF] holds "v1" when its baseline is captured. *)
Definition tracked : World := run (snapshotFile fileF) (onDisk "/w/f.txt" "v1" initial).

(** ... and is then edited to "v2". *)
Definition trackedAndEdited : World := onDisk "/w/f.txt" "v2" tracked.

(** ... or is then removed from disk. *)
Definition trackedAndGone : World := withHost (withDisk (delete "/w/f.txt")) tracked.

(** A deletion of [fileF] is recorded with content "v0"; the file comes
    back holding "v1", a baseline is captured from it, and it is edited to
    "v2". *)
Definition deletedThenTracked : World :=
  onDisk "/w/f.txt" "v2"
    (run (snapshotFile fileF)
       (onDisk "/w/f.txt" "v1" (run (trackDeletedFile fileF (Some "v0")) initial))).

(** A host on which writing [fileF] is refused. *)
Definition readOnlyHost : Host :=
  mkHost [] ∅ ∅ {["/w/f.txt" := "EACCES"]} ∅ ∅ ∅ ∅ (λ _ path, path) (λ path, path) 0.

Definition deletedOnReadOnly : World :=
  run (trackDeletedFile fileF (Some "v0")) (mkWorld (newManager None) readOnlyHost []).

(** A host on which [save] resolves to [false] for [fileF]. *)
Definition withSaveOutcome (f : gmap string SaveOutcome → gmap string SaveOutcome)
    (h : Host) : Host :=
  mkHost (textDocuments h) (disk h) (readFileError h) (writeFileError h)
         (unlinkError h) (openTextDocumentError h) (applyEditOutcome h)
         (f (saveOutcome h)) (pathRelative h) (pathBasename h) (now h).

Definition trackedSaveRefused : World :=
  withHost (withSaveOutcome (insert "/w/f.txt" SaveRefused)) trackedAndEdited.

(** A host on which deleting [fileF] is refused: the new file stays. *)
Definition withUnlinkError (f : gmap string string → gmap string string) (h : Host) : Host :=
  mkHost (textDocuments h) (disk h) (readFileError h) (writeFileError h)
         (f (unlinkError h)) (openTextDocumentError h) (applyEditOutcome h)
         (saveOutcome h) (pathRelative h) (pathBasename h) (now h).

Definition createdUnlinkRefused : World :=
  withHost (withUnlinkError (insert "/w/f.txt" "EACCES")) createdWithText.


(** A session whose watcher has just been constructed, on a host where one
    file is open with the text it has on disk. *)
Definition hostWithOpenFile (path text : string) : Host :=
  mkHost [(path, text)] {[path := text]} ∅ ∅ ∅ ∅ ∅ ∅ (λ _ p, p) (λ p, p) 0.

Definition noSettings : Configuration := mkConfiguration None None.

Definition sessionOn (h : Host) (current : Configuration) : Session :=
  mkSession (mkWorld (newManager None) h []) (newFileWatcher current) current (λ _, "file").

Definition runW {A} (m : W A) (s : Session) : Session := (m s).2.

(** Tracking has been started while "/w/f.txt" was open holding "v1". *)
Definition watching : Session :=
  runW startTracking (sessionOn (hostWithOpenFile "/w/f.txt" "v1") noSettings).

(** ... and the document is then edited to "v2" in the editor. *)
Definition editedInEditor : Session :=
  withWorld (withHost (withTextDocuments (λ _, [("/w/f.txt", "v2")]))) watching.

(** The same, with the pattern [node_modules] excluded from the start. *)
Definition watchingWithExclusion : Session :=
  runW startTracking
    (sessionOn (hostWithOpenFile "/w/node_modules/a.js" "v1")
       (mkConfiguration None (Some ["**/node_modules/**"]))).

(** * Properties *)

(** ** The line counter *)

Example split_trailing : Js.split ("a" +:+ Js.nl +:+ "b" +:+ Js.nl) = ["a"; "b"; ""].
Proof. reflexivity. Qed.

Example split_empty : Js.split "" = [""].
Proof. reflexivity. Qed.

Example split_only_line_feed : Js.split Js.nl = [""; ""].
Proof. reflexivity. Qed.

(** Each occurrence counts: two added lines with the same text are two
    additions. *)
Example countChanges_per_occurrence :
  countChanges "a" ("b" +:+ Js.nl +:+ "b") = mkCounts 2 1.
Proof. reflexivity. Qed.

(** A line that moved, or that exists once on one side and twice on the
    other, is not counted. *)
Example countChanges_ignores_order_and_multiplicity :
  countChanges ("a" +:+ Js.nl +:+ "b") ("b" +:+ Js.nl +:+ "a" +:+ Js.nl +:+ "a")
  = mkCounts 0 0.
Proof. reflexivity. Qed.

Section Counting.

Implicit Types (lines side other : list string) (seen : gset string).

Lemma count_loop seen lines (n : nat) :
  fold_left (fun count line => if decide (line ∈ seen) then count else S count) lines n
  = n + length (filter (λ line, line ∉ seen) lines).
Proof.
  revert n. induction lines as [|line lines IH]; intros n; simpl.
  - lia.
  - rewrite IH. rewrite filter_cons.
    destruct (decide (line ∈ seen)); destruct (decide (line ∉ seen)); simpl; try lia; tauto.
Qed.

Lemma occurrences_cons text line lines :
  Reference.occurrences text (line :: lines)
  = (if decide (line = text) then 1 else 0) + Reference.occurrences text lines.
Proof.
  unfold Reference.occurrences. rewrite filter_cons.
  destruct (decide (line = text)); reflexivity.
Qed.

Lemma sum_list_cons (n : nat) (ns : list nat) : sum_list (n :: ns) = n + sum_list ns.
Proof. reflexivity. Qed.

Lemma sum_indicator (line : string) (texts : list string) :
  NoDup texts →
  sum_list ((λ text, if decide (line = text) then 1 else 0) <$> texts)
  = if decide (line ∈ texts) then 1 else 0.
Proof.
  induction 1 as [|text texts Hnotin Hnodup IH].
  - simpl. destruct (decide (line ∈ [])) as [Hin|]; [inversion Hin | done].
  - rewrite fmap_cons, sum_list_cons, IH.
    destruct (decide (line = text)) as [->|Hne].
    + destruct (decide (text ∈ texts)); [tauto|].
      destruct (decide (text ∈ text :: texts)) as [|Hn]; [done|].
      exfalso; apply Hn; left.
    + destruct (decide (line ∈ texts)) as [Hin|Hout];
        destruct (decide (line ∈ text :: texts)) as [Hin'|Hout']; try done.
      * exfalso; apply Hout'; by right.
      * apply elem_of_cons in Hin' as [?|?]; tauto.
Qed.

Lemma sum_list_add {A} (f g : A → nat) (l : list A) :
  sum_list ((λ x, f x + g x) <$> l) = sum_list (f <$> l) + sum_list (g <$> l).
Proof.
  induction l as [|x l IH]; [done|].
  rewrite !fmap_cons, !sum_list_cons, IH. lia.
Qed.

(** Counting per distinct text is counting per occurrence. *)
Lemma sum_occurrences seen (texts : list string) lines :
  NoDup texts →
  (∀ text, text ∈ texts → text ∉ seen) →
  (∀ line, line ∈ lines → line ∉ seen → line ∈ texts) →
  sum_list ((λ text, Reference.occurrences text lines) <$> texts)
  = length (filter (λ line, line ∉ seen) lines).
Proof.
  intros Hnodup Hout Hcover.
  induction lines as [|line lines IH].
  - simpl. unfold Reference.occurrences. simpl.
    clear. induction texts; simpl; auto.
  - erewrite (list_fmap_ext _ (λ text, (if decide (line = text) then 1 else 0)
                                        + Reference.occurrences text lines));
      [|intros; apply occurrences_cons].
    rewrite sum_list_add, sum_indicator by done.
    rewrite IH by (intros l Hl; apply Hcover; by right).
    rewrite filter_cons.
    destruct (decide (line ∉ seen)) as [Hfresh|Hseen]; simpl.
    + destruct (decide (line ∈ texts)) as [|Hn]; [done|].
      exfalso; apply Hn, Hcover; [left | done].
    + destruct (decide (line ∈ texts)) as [Hin|]; [|done].
      exfalso; by apply Hseen, Hout.
Qed.

Lemma one_sided_filter side other :
  Reference.one_sided side other
  = length (filter (λ line, line ∉ (list_to_set other : gset string)) side).
Proof.
  unfold Reference.one_sided.
  apply sum_occurrences.
  - apply NoDup_elements.
  - intros text Hin. apply elem_of_elements, elem_of_difference in Hin. tauto.
  - intros line Hin Hout. apply elem_of_elements.
    apply elem_of_difference; split; [|done].
    by apply elem_of_list_to_set.
Qed.

End Counting.

Lemma countChanges_filter original current :
  countChanges original current
  = mkCounts
      (length (filter (λ line, line ∉ (list_to_set (Js.split original) : gset string))
                      (Js.split current)))
      (length (filter (λ line, line ∉ (list_to_set (Js.split current) : gset string))
                      (Js.split original))).
Proof. unfold countChanges. by rewrite !count_loop. Qed.

Section Lines.

Implicit Types (s content line : string) (lines : list string) (c : ascii).

Lemma isLine_String c line :
  Reference.isLine (String c line) ↔ c ≠ Reference.lineFeed ∧ Reference.isLine line.
Proof.
  unfold Reference.isLine. cbn [list_ascii_of_string]. rewrite not_elem_of_cons.
  split; intros [? ?]; split; congruence.
Qed.

Lemma joined_String c line lines :
  Reference.joined (String c line :: lines) = String c (Reference.joined (line :: lines)).
Proof. by destruct lines. Qed.

Lemma joined_empty_first line lines :
  Reference.joined ("" :: line :: lines)
  = String Reference.lineFeed (Reference.joined (line :: lines)).
Proof. reflexivity. Qed.

Lemma split_nonempty s : Js.split s ≠ [].
Proof.
  destruct s as [|c s]; [done|]. cbn [Js.split].
  destruct (Ascii.eqb c Js.LF); [done|]. by destruct (Js.split s).
Qed.

(** [split] splits a content on its line boundaries ... *)
Lemma split_splitsInto s : Reference.splitsInto s (Js.split s).
Proof.
  induction s as [|c s (Hne & Hlines & Hjoin)].
  - split; [done|]. split; [|done]. repeat constructor. apply not_elem_of_nil.
  - cbn [Js.split]. destruct (Ascii.eqb_spec c Js.LF) as [->|Hc].
    + split; [done|]. split.
      * constructor; [apply not_elem_of_nil | done].
      * destruct (Js.split s) as [|line lines]; [done|].
        rewrite joined_empty_first. by rewrite Hjoin.
    + destruct (Js.split s) as [|line lines]; [done|].
      split; [done|]. split.
      * inversion Hlines; subst. constructor; [|done]. by apply isLine_String.
      * by rewrite joined_String, Hjoin.
Qed.

(** ... and there is no other way to split it. *)
Lemma splitsInto_unique s lines : Reference.splitsInto s lines → lines = Js.split s.
Proof.
  revert lines. induction s as [|c s IH]; intros lines (Hne & Hlines & Hjoin).
  - destruct lines as [|line [|line' lines]]; [done| |].
    + simpl in Hjoin. by subst.
    + destruct line; discriminate Hjoin.
  - destruct lines as [|line lines]; [done|].
    apply Forall_cons in Hlines as [Hline Hlines].
    destruct line as [|c' line].
    + destruct lines as [|line' lines]; [discriminate Hjoin|].
      rewrite joined_empty_first in Hjoin. injection Hjoin as <- Hjoin.
      cbn [Js.split]. change (Ascii.eqb Reference.lineFeed Js.LF) with true. cbv iota.
      f_equal. by apply IH.
    + rewrite joined_String in Hjoin. injection Hjoin as -> Hjoin.
      apply isLine_String in Hline as [Hc Hline].
      cbn [Js.split]. destruct (Ascii.eqb_spec c Js.LF) as [->|_]; [done|].
      rewrite <- (IH (line :: lines)); [done|].
      split; [done|]. split; [by constructor | done].
Qed.

(** [split] gives one segment more than the content has line feeds. *)
Lemma split_length s : length (Js.split s) = Reference.lineCount s.
Proof.
  unfold Reference.lineCount. induction s as [|c s IH]; [done|].
  cbn [Js.split list_ascii_of_string]. rewrite filter_cons.
  destruct (Ascii.eqb_spec c Js.LF) as [->|Hc].
  - rewrite decide_True by done. cbn [length]. by rewrite IH.
  - rewrite decide_False by done.
    pose proof (split_nonempty s). destruct (Js.split s); [done|]. exact IH.
Qed.

(** The lines of a content are as many as its line count. *)
Lemma splitsInto_length s lines :
  Reference.splitsInto s lines → length lines = Reference.lineCount s.
Proof. intros ->%splitsInto_unique. apply split_length. Qed.

End Lines.

(** C6: [countChanges] computes the reference counts of the specification:
    whenever the original and the current content are split on their line
    boundaries into lines (and every content is, in exactly one way), the
    additions are the occurrences in the current lines of the distinct
    texts absent from the original's line set, and the deletions
    symmetrically.  "a\nb\n" splits into [a], [b] and the empty line,
    "a\nc\n" into [a], [c] and the empty line, the reference counts on
    them are 1 and 1, and so are those [countChanges] returns. *)
Theorem countChanges_meets_reference :
  (∀ original current originalLines currentLines,
     Reference.splitsInto original originalLines →
     Reference.splitsInto current currentLines →
     additions (countChanges original current)
     = Reference.additions originalLines currentLines ∧
     deletions (countChanges original current)
     = Reference.deletions originalLines currentLines) ∧
  (∀ content, ∃ lines,
     Reference.splitsInto content lines ∧
     ∀ lines', Reference.splitsInto content lines' → lines' = lines) ∧
  Reference.splitsInto ("a" +:+ Js.nl +:+ "b" +:+ Js.nl) ["a"; "b"; ""] ∧
  Reference.splitsInto ("a" +:+ Js.nl +:+ "c" +:+ Js.nl) ["a"; "c"; ""] ∧
  Reference.additions ["a"; "b"; ""] ["a"; "c"; ""] = 1 ∧
  Reference.deletions ["a"; "b"; ""] ["a"; "c"; ""] = 1 ∧
  countChanges ("a" +:+ Js.nl +:+ "b" +:+ Js.nl) ("a" +:+ Js.nl +:+ "c" +:+ Js.nl)
  = mkCounts 1 1.
Proof.
  split; [|split; [|split; [|split; [|split; [|split]]]]].
  - intros original current originalLines currentLines
      ->%splitsInto_unique ->%splitsInto_unique.
    rewrite countChanges_filter. simpl.
    unfold Reference.additions, Reference.deletions.
    by rewrite !one_sided_filter.
  - intros content. exists (Js.split content). split; [apply split_splitsInto|].
    intros lines'. apply splitsInto_unique.
  - apply (split_splitsInto ("a" +:+ Js.nl +:+ "b" +:+ Js.nl)).
  - apply (split_splitsInto ("a" +:+ Js.nl +:+ "c" +:+ Js.nl)).
  - rewrite (one_sided_filter ["a"; "c"; ""] ["a"; "b"; ""] : Reference.additions _ _ = _).
    by vm_compute.
  - rewrite (one_sided_filter ["a"; "b"; ""] ["a"; "c"; ""] : Reference.deletions _ _ = _).
    by vm_compute.
  - reflexivity.
Qed.

(** C9: swapping the two arguments of [countChanges] swaps the two counts. *)
Theorem countChanges_swap (a b : string) :
  additions (countChanges a b) = deletions (countChanges b a) ∧
  deletions (countChanges a b) = additions (countChanges b a).
Proof. by rewrite !countChanges_filter. Qed.

(** ** Reading and listing *)

(** Unfolds the sequencing layer down to matches on worlds. *)
Ltac unfold_M :=
  unfold fire, consoleError, newDate,
    snapshotsHas, snapshotsGet, snapshotsSet, snapshotsDelete,
    deletedFilesHas, deletedFilesGet, deletedFilesSet, deletedFilesDelete,
    getRelativePath in *;
  unfold bind, ret, gets, modify, throw, tryCatch in *.

Lemma readFileContent_run uri w : readFileContent uri w = (observe uri w, w).
Proof.
  unfold observe, readFileContent, Vscode.findTextDocument, Fs.readFile. unfold_M.
  repeat case_match; simplify_eq/=; done.
Qed.

Lemma observe_host_only uri w : observe uri w = contentOn (host w) uri.
Proof.
  unfold observe, contentOn, readFileContent, Vscode.findTextDocument, Fs.readFile. unfold_M.
  repeat case_match; simplify_eq/=; try done.
  all: repeat case_bool_decide; simplify_eq/=; done.
Qed.

Lemma observe_host uri w w' : host w' = host w → observe uri w' = observe uri w.
Proof. intros Hhost. by rewrite !observe_host_only, Hhost. Qed.

Lemma sameState_refl w : sameState w w.
Proof. done. Qed.

Lemma sameState_trans w1 w2 w3 : sameState w1 w2 → sameState w2 w3 → sameState w1 w3.
Proof. unfold sameState. intros [-> ->] [-> ->]. done. Qed.

Lemma sameState_emit e w : sameState w (emit e w).
Proof. done. Qed.

Lemma checkSnapshot_run key snapshot changes w :
  ∃ w', checkSnapshot (key, snapshot) changes w
        = (Normal (changes ++ changesOf (observe (FileSnapshot.uri snapshot) w) snapshot)%list, w')
        ∧ sameState w w'.
Proof.
  unfold checkSnapshot, tryCatch, bind. rewrite readFileContent_run.
  unfold changesOf.
  destruct (observe _ w) as [[currentContent|]|e]; unfold_M; simpl.
  - destruct (FileSnapshot.isNewFile snapshot); [by eexists|].
    case_bool_decide; eexists; (split; [|apply sameState_refl]); [done|].
    by rewrite app_nil_r.
  - destruct (FileSnapshot.isNewFile snapshot); simpl; eexists;
      (split; [|apply sameState_refl]); [|done]. by rewrite app_nil_r.
  - eexists; split; [|apply sameState_emit]. by rewrite app_nil_r.
Qed.

Lemma checkSnapshot_loop (tracked : list (string * FileSnapshot.t)) changes w :
  ∃ w', forOf tracked checkSnapshot changes w
        = (Normal (changes ++ (tracked ≫= λ entry,
                     changesOf (observe (FileSnapshot.uri entry.2) w) entry.2))%list, w')
        ∧ sameState w w'.
Proof.
  revert changes w. induction tracked as [|[key snapshot] tracked IH]; intros changes w.
  - exists w. split; [|done]. simpl. unfold ret. by rewrite app_nil_r.
  - destruct (checkSnapshot_run key snapshot changes w) as (w1 & Hrun & Hsame).
    destruct (IH (changes ++ changesOf (observe (FileSnapshot.uri snapshot) w) snapshot)%list w1)
      as (w2 & Hrest & Hsame').
    exists w2. split; [|by eapply sameState_trans].
    cbn [forOf]. unfold bind at 1. rewrite Hrun, Hrest.
    rewrite bind_cons, <- app_assoc. simpl.
    do 4 f_equal. apply list_bind_ext; [|done].
    intros [k s]. simpl. f_equal. apply observe_host, Hsame.
Qed.

Lemma pushDeleted_loop (removed : list (string * FileSnapshot.t)) changes w :
  forOf removed pushDeleted changes w
  = (Normal (changes ++ (deletedChange ∘ snd <$> removed))%list, w).
Proof.
  revert changes. induction removed as [|[key snapshot] removed IH]; intros changes.
  - simpl. unfold ret. by rewrite app_nil_r.
  - cbn [forOf]. unfold bind, pushDeleted at 1, ret at 1. rewrite IH.
    by rewrite fmap_cons, <- app_assoc.
Qed.

(** [getChangedFiles] always returns, with the change list of the world it
    ran in, and touches neither the maps nor the host. *)
Lemma getChangedFiles_run w :
  ∃ w', getChangedFiles w = (Normal (changeList w), w') ∧ sameState w w'.
Proof.
  unfold getChangedFiles, bind at 1 2 3, gets.
  destruct (checkSnapshot_loop (map_to_list (snapshots (this w))) [] w)
    as (w1 & Hrun & Hsame).
  rewrite Hrun. exists w1. split; [|done].
  rewrite pushDeleted_loop. unfold changeList.
  destruct Hsame as [-> _]. done.
Qed.

Lemma elem_of_changeList (c : FileChange.t) w :
  c ∈ changeList w ↔
    (∃ key snapshot, snapshots (this w) !! key = Some snapshot ∧
                     c ∈ changesOf (observe (FileSnapshot.uri snapshot) w) snapshot) ∨
    (∃ key snapshot, deletedFiles (this w) !! key = Some snapshot ∧
                     c = deletedChange snapshot).
Proof.
  unfold changeList. rewrite elem_of_app, list_elem_of_bind, list_elem_of_fmap.
  split.
  - intros [([key snapshot] & Hc & Hin)|([key snapshot] & -> & Hin)].
    + left. exists key, snapshot. by apply elem_of_map_to_list in Hin.
    + right. exists key, snapshot. by apply elem_of_map_to_list in Hin.
  - intros [(key & snapshot & Hin & Hc)|(key & snapshot & Hin & ->)].
    + left. exists (key, snapshot). by apply elem_of_map_to_list in Hin.
    + right. exists (key, snapshot). by apply elem_of_map_to_list in Hin.
Qed.

(** C8: every [deleted] entry of [getChangedFiles] has no additions and as
    many deletions as its original content has lines: one more than it has
    line feeds, which is the number of lines the content splits into on
    its line boundaries.  The entry carries the original content of the
    record it was made from: a deleted record, or a baseline (not a new
    file) whose file does not exist.  Each such record yields an entry of
    kind [deleted] with its [uri] and original content; a deleted record
    always does. *)
Theorem deleted_entries_count_original_lines (w : World) :
  ∃ changes w',
    getChangedFiles w = (Normal changes, w') ∧
    (∀ c, c ∈ changes → FileChange.changeType c = deleted →
       FileChange.additions c = 0 ∧
       FileChange.deletions c = Reference.lineCount (FileChange.originalContent c) ∧
       (∀ lines, Reference.splitsInto (FileChange.originalContent c) lines →
                 FileChange.deletions c = length lines) ∧
       ∃ key record,
         (deletedFiles (this w) !! key = Some record ∨
          (snapshots (this w) !! key = Some record ∧
           FileSnapshot.isNewFile record = false ∧
           observe (FileSnapshot.uri record) w = Normal None)) ∧
         FileChange.uri c = FileSnapshot.uri record ∧
         FileChange.originalContent c = FileSnapshot.originalContent record) ∧
    (∀ key record,
       deletedFiles (this w) !! key = Some record ∨
       (snapshots (this w) !! key = Some record ∧
        FileSnapshot.isNewFile record = false ∧
        observe (FileSnapshot.uri record) w = Normal None) →
       ∃ c, c ∈ changes ∧
            FileChange.changeType c = deleted ∧
            FileChange.uri c = FileSnapshot.uri record ∧
            FileChange.relativePath c = FileSnapshot.relativePath record ∧
            FileChange.snapshotTime c = FileSnapshot.snapshotTime record ∧
            FileChange.originalContent c = FileSnapshot.originalContent record ∧
            FileChange.currentContent c = "" ∧
            FileChange.additions c = 0 ∧
            FileChange.deletions c
            = Reference.lineCount (FileSnapshot.originalContent record)).
Proof.
  destruct (getChangedFiles_run w) as (w' & Hrun & _).
  exists (changeList w), w'. split; [done|]. split.
  - intros c Hc Hkind. apply elem_of_changeList in Hc
      as [(key & record & Hin & Hc)|(key & record & Hin & ->)].
    + unfold changesOf in Hc.
      destruct (observe _ w) as [[currentContent|]|e] eqn:Hread;
        destruct (FileSnapshot.isNewFile record) eqn:Hnew;
        repeat case_bool_decide;
        try (apply list_elem_of_singleton in Hc as ->); try (by inversion Hc);
        try discriminate Hkind.
      simpl. split; [done|]. split; [apply split_length|].
      split; [by intros lines ->%splitsInto_unique|]. exists key, record. eauto 6.
    + simpl. split; [done|]. split; [apply split_length|].
      split; [by intros lines ->%splitsInto_unique|]. exists key, record. eauto.
  - intros key record Hrecord. exists (deletedChange record).
    split; [|simpl; by rewrite split_length].
    apply elem_of_changeList.
    destruct Hrecord as [Hin|(Hin & Hnew & Hread)]; [right; eauto|].
    left. exists key, record. split; [done|]. rewrite Hread. simpl. rewrite Hnew. left.
Qed.

(** C2, on the claim as stated: a new-file baseline whose file is not on
    disk yields no entry at all. *)
Lemma new_file_gone_yields_nothing :
  snapshots (this createdAndGone) !! "/w/f.txt"
    = Some (FileSnapshot.mk fileF "" 0 "/w/f.txt" true) ∧
  (getChangedFiles createdAndGone).1 = Normal [].
Proof. split; reflexivity. Qed.

(** ** Capturing *)

(** C1, at the failing input: a new manager keeps the two maps apart, but
    after a deletion of a file is recorded and the file is then registered
    as new, the path is a key of both maps. *)
Theorem recreated_file_is_in_both_maps :
  exclusive (this initial) ∧
  snapshots (this deletedThenCreated) !! "/w/f.txt"
    = Some (FileSnapshot.mk fileF "" 0 "/w/f.txt" true) ∧
  deletedFiles (this deletedThenCreated) !! "/w/f.txt"
    = Some (FileSnapshot.mk fileF "x" 0 "/w/f.txt" false) ∧
  ¬ exclusive (this deletedThenCreated).
Proof.
  split; [apply map_disjoint_empty_l|]. split; [reflexivity|]. split; [reflexivity|].
  intros Hexclusive.
  by apply (proj1 (map_disjoint_spec _ _) Hexclusive "/w/f.txt"
              (FileSnapshot.mk fileF "" 0 "/w/f.txt" true)
              (FileSnapshot.mk fileF "x" 0 "/w/f.txt" false)).
Qed.

(** The other direction is kept: recording a deletion removes the baseline. *)
Lemma trackDeletedFile_run uri lastKnownContent w :
  ∃ w', trackDeletedFile uri lastKnownContent w = (Normal tt, w') ∧
    snapshots (this w') = delete (fsPath uri) (snapshots (this w)) ∧
    deletedFiles (this w')
      = <[fsPath uri :=
            FileSnapshot.mk uri
              (deletionContent (snapshots (this w) !! fsPath uri) lastKnownContent)
              (now (host w))
              (match workspaceRoot (this w) with
               | Some root => pathRelative (host w) root (fsPath uri)
               | None => pathBasename (host w) (fsPath uri)
               end)
              false]> (deletedFiles (this w)) ∧
    host w' = host w ∧
    effects w' = (effects w ++ [SnapshotsChanged])%list.
Proof. unfold trackDeletedFile. unfold_M. simpl. eexists. split; [reflexivity|]. done. Qed.

(** C4: capturing again is a no-op.  When a baseline exists for the path,
    [snapshotFile], [autoSnapshotBeforeChange] and [trackNewFile] leave both
    maps as they are, whatever the file holds now, and fire no
    notification; the last two do nothing at all, the first may log a
    failed read. *)
Theorem capture_again_is_noop (w : World) (uri : Uri) :
  is_Some (snapshots (this w) !! fsPath uri) →
  (∃ w', snapshotFile uri w = (Normal tt, w') ∧
         this w' = this w ∧ host w' = host w ∧
         ∃ logged, effects w' = (effects w ++ logged)%list ∧ SnapshotsChanged ∉ logged) ∧
  autoSnapshotBeforeChange uri w = (Normal tt, w) ∧
  trackNewFile uri w = (Normal tt, w).
Proof.
  intros Hhas.
  assert (bool_decide (is_Some (snapshots (this w) !! fsPath uri)) = true) as Hb
    by by apply bool_decide_eq_true_2.
  split; [|split].
  - unfold snapshotFile, tryCatch, bind at 1. rewrite readFileContent_run.
    destruct (observe uri w) as [[content|]|e]; unfold_M; simpl;
      eexists; rewrite ?Hb; (split; [reflexivity|]); simpl; (split; [done|]);
      (split; [done|]).
    + exists []; split; [by rewrite app_nil_r | apply not_elem_of_nil].
    + exists []; split; [by rewrite app_nil_r | apply not_elem_of_nil].
    + eexists; split; [done|]. rewrite list_elem_of_singleton. discriminate.
  - unfold autoSnapshotBeforeChange. unfold_M. simpl. by rewrite Hb.
  - unfold trackNewFile. unfold_M. simpl. by rewrite Hb.
Qed.

Lemma capture_again_is_noop_witness :
  autoSnapshotBeforeChange fileF trackedAndEdited = (Normal tt, trackedAndEdited) ∧
  snapshots (this trackedAndEdited) !! "/w/f.txt"
    = Some (FileSnapshot.mk fileF "v1" 0 "/w/f.txt" false).
Proof.
  split; [|reflexivity].
  apply (capture_again_is_noop trackedAndEdited fileF).
  exists (FileSnapshot.mk fileF "v1" 0 "/w/f.txt" false). reflexivity.
Defined.

(** ** Deleting and restoring *)

(** [revertFile] on a path with a deleted record: one [writeFile] of the
    record's content, and the record is dropped only if it succeeded. *)
Lemma revertFile_deleted_run uri record w :
  deletedFiles (this w) !! fsPath uri = Some record →
  revertFile uri w =
    let attempted :=
      emit (FsWriteFile (fsPath uri) (FileSnapshot.originalContent record)) w in
    match writeFileError (host w) !! fsPath uri with
    | Some code =>
        (Normal false, emit (ConsoleError "Failed to restore deleted file") attempted)
    | None =>
        (Normal true,
         emit SnapshotsChanged
           (withThis (withDeletedFiles (delete (fsPath uri)))
              (withHost (withDisk (insert (fsPath uri) (FileSnapshot.originalContent record)))
                 attempted)))
    end.
Proof.
  intros Hrecord. unfold revertFile, Fs.writeFile. unfold_M. simpl. rewrite Hrecord.
  simpl. by destruct (writeFileError (host w) !! fsPath uri).
Qed.

(** C3: recording a deletion for a path with a baseline stores the
    baseline's original content in the deleted record, whatever fallback
    is passed, and removes the baseline; reverting next writes exactly that
    content to the path, and when the write is not refused the file holds
    it and the record is gone. *)
Theorem deletion_keeps_baseline_original
    (w : World) (uri : Uri) (lastKnownContent : option string) (baseline : FileSnapshot.t) :
  snapshots (this w) !! fsPath uri = Some baseline →
  ∃ w1 record,
    trackDeletedFile uri lastKnownContent w = (Normal tt, w1) ∧
    deletedFiles (this w1) !! fsPath uri = Some record ∧
    FileSnapshot.originalContent record = FileSnapshot.originalContent baseline ∧
    snapshots (this w1) !! fsPath uri = None ∧
    ∃ restored w2,
      revertFile uri w1 = (Normal restored, w2) ∧
      effects w2
        = (effects w1 ++
           [FsWriteFile (fsPath uri) (FileSnapshot.originalContent baseline);
            if restored then SnapshotsChanged
            else ConsoleError "Failed to restore deleted file"])%list ∧
      (writeFileError (host w) !! fsPath uri = None →
       restored = true ∧
       disk (host w2) !! fsPath uri = Some (FileSnapshot.originalContent baseline) ∧
       deletedFiles (this w2) !! fsPath uri = None).
Proof.
  intros Hbaseline.
  destruct (trackDeletedFile_run uri lastKnownContent w)
    as (w1 & Hrun & Hsnapshots & Hdeleted & Hhost & Heffects).
  rewrite Hbaseline in Hdeleted. simpl in Hdeleted.
  eexists w1, _. split; [done|].
  split; [by rewrite Hdeleted, lookup_insert_eq|].
  split; [done|].
  split; [by rewrite Hsnapshots, lookup_delete_eq|].
  erewrite revertFile_deleted_run by (by rewrite Hdeleted, lookup_insert_eq).
  simpl. rewrite Hhost.
  destruct (writeFileError (host w) !! fsPath uri) as [code|].
  - eexists _, _. split; [done|]. simpl. split; [by rewrite <- app_assoc|]. done.
  - eexists _, _. split; [done|]. simpl. split; [by rewrite <- app_assoc|].
    intros _. split; [done|]. by rewrite lookup_insert_eq, lookup_delete_eq.
Qed.

Lemma deletion_keeps_baseline_original_witness :
  ∃ w1 record,
    trackDeletedFile fileF (Some "fallback") tracked = (Normal tt, w1) ∧
    deletedFiles (this w1) !! "/w/f.txt" = Some record ∧
    FileSnapshot.originalContent record = "v1".
Proof.
  destruct (deletion_keeps_baseline_original tracked fileF (Some "fallback")
              (FileSnapshot.mk fileF "v1" 0 "/w/f.txt" false))
    as (w1 & record & Hrun & Hrecord & Hcontent & _).
  - reflexivity.
  - exists w1, record. done.
Defined.

(** ** Accepting *)

(** C10, on the claim as stated: with a deleted record under the same
    path, accepting drops that record and returns; the baseline of the
    missing file stays in the active map. *)
Lemma accept_with_deleted_record_keeps_baseline :
  observe fileF deletedThenCreated = Normal None ∧
  snapshots (this deletedThenCreated) !! "/w/f.txt"
    = Some (FileSnapshot.mk fileF "" 0 "/w/f.txt" true) ∧
  snapshots (this (run (acceptAndUpdateBaseline fileF None) deletedThenCreated)) !! "/w/f.txt"
    = Some (FileSnapshot.mk fileF "" 0 "/w/f.txt" true).
Proof. repeat split; reflexivity. Qed.

(** C10, amended: on a path with a baseline and no deleted record, whose
    file does not exist, [acceptAndUpdateBaseline] removes the baseline,
    fires the notification once and does nothing else.  The outcome is this
    one world whatever the callback is, one that throws or changes the maps
    included: the callback is not run. *)
Theorem accept_of_missing_file
    (w : World) (uri : Uri) (baseline : FileSnapshot.t)
    (updateCacheCallback : option (Uri → string → M unit)) :
  deletedFiles (this w) !! fsPath uri = None →
  snapshots (this w) !! fsPath uri = Some baseline →
  observe uri w = Normal None →
  acceptAndUpdateBaseline uri updateCacheCallback w
  = (Normal tt, emit SnapshotsChanged (withThis (withSnapshots (delete (fsPath uri))) w)).
Proof.
  intros Hdeleted Hbaseline Hread.
  unfold acceptAndUpdateBaseline, bind at 1, deletedFilesHas, gets.
  rewrite Hdeleted.
  rewrite bool_decide_eq_false_2 by (by intros [? [=]]).
  unfold bind at 1, snapshotsGet, gets. rewrite Hbaseline.
  unfold tryCatch, bind at 1 2. rewrite readFileContent_run, Hread.
  reflexivity.
Qed.

Lemma accept_of_missing_file_witness :
  acceptAndUpdateBaseline fileF (Some (λ _ _, throw HostError)) trackedAndGone
  = (Normal tt,
     emit SnapshotsChanged (withThis (withSnapshots (delete "/w/f.txt")) trackedAndGone)).
Proof.
  apply (accept_of_missing_file trackedAndGone fileF
           (FileSnapshot.mk fileF "v1" 0 "/w/f.txt" false)); reflexivity.
Defined.

(** ** Reverting *)

Lemma append_empty (s : string) : s +:+ "" = s.
Proof.
  induction s as [|c s IH]; [done|].
  change (String c (s +:+ "") = String c s). by f_equal.
Qed.

Lemma substring_none (n : nat) (s : string) : substring n 0 s = "".
Proof. revert n. induction s as [|c s IH]; intros [|n]; simpl; auto. Qed.

(** Replacing the range from offset 0 to the text's length replaces it all. *)
Lemma replaceRange_all (text new : string) :
  Vscode.replaceRange text 0 (String.length text) new = new.
Proof.
  unfold Vscode.replaceRange.
  rewrite Nat.sub_diag, !substring_none.
  change (new +:+ "" = new). apply append_empty.
Qed.

Lemma lookupDocument_opened path content docs :
  Vscode.lookupDocument path docs = None →
  Vscode.lookupDocument path (docs ++ [(path, content)]) = Some content.
Proof.
  unfold Vscode.lookupDocument. induction docs as [|[p t] docs IH]; simpl.
  - intros _. by rewrite bool_decide_eq_true_2.
  - case_bool_decide; [done | apply IH].
Qed.

Lemma lookupDocument_edited e docs :
  Vscode.lookupDocument (fsPath (Vscode.editUri e)) (Vscode.editDocument e <$> docs)
  = (λ text, Vscode.replaceRange text (Vscode.rangeStart e) (Vscode.rangeEnd e)
               (Vscode.newText e))
    <$> Vscode.lookupDocument (fsPath (Vscode.editUri e)) docs.
Proof.
  unfold Vscode.lookupDocument. induction docs as [|[p t] docs IH]; [done|].
  rewrite fmap_cons. unfold Vscode.editDocument at 1. simpl.
  destruct (bool_decide_reflect (p = fsPath (Vscode.editUri e))) as [Hp|Hp]; simpl.
  - by rewrite bool_decide_eq_true_2.
  - rewrite bool_decide_eq_false_2 by done. apply IH.
Qed.

(** Unfolds [revertFile] on a baseline of an existing file down to the
    host's tables. *)
Ltac unfold_revert H :=
  unfold revertFile, Vscode.openTextDocument, Vscode.getText, Vscode.applyEdit,
    Vscode.save, removeSnapshot in H;
  unfold_M; simpl in H.

(** [revertFile] never throws. *)
Lemma revertFile_returns uri w : ∃ result w', revertFile uri w = (Normal result, w').
Proof.
  destruct (revertFile uri w) as [r w'] eqn:Hrun.
  unfold revertFile, Fs.writeFile, Fs.unlink in Hrun. unfold_revert Hrun.
  repeat case_match; simplify_eq/=; eauto.
Qed.

(** [revertFile] never throws.  When the write that recreates a deleted
    file is refused, or the replacement of an existing file's content
    stops (the document cannot be opened, the edit is rejected or throws,
    or the save throws), it returns [false]; and whenever it returns
    [false], both maps are as before, no notification is fired and the
    disk is untouched. *)
Lemma noticed_failure_keeps_the_maps (w : World) (uri : Uri) :
  ∃ result w',
    revertFile uri w = (Normal result, w') ∧
    (failureNoticed w uri → result = false) ∧
    (result = false →
     this w' = this w ∧
     disk (host w') = disk (host w) ∧
     ∃ logged, effects w' = (effects w ++ logged)%list ∧ SnapshotsChanged ∉ logged).
Proof.
  unfold failureNoticed, writeRefused, replacementRejected.
  destruct (revertFile uri w) as [r w'] eqn:Hrun.
  unfold revertFile, Fs.writeFile, Fs.unlink in Hrun. unfold_revert Hrun.
  repeat case_match; simplify_eq/=.
  all: eexists _, _; split; [reflexivity|].
  all: split;
    [ intros Hfail;
      first [ reflexivity
            | exfalso; first
                [ by destruct Hfail as [? [=]]
                | by destruct Hfail as [[=] _]
                | destruct Hfail as [_ [[? [?|?]]|[?|[?|?]]]]; (congruence || done)
                | done ] ]
    | intros Hresult;
      first [ discriminate Hresult
            | simpl; repeat split; first
                [ exists []; split; [by rewrite app_nil_r | apply not_elem_of_nil]
                | eexists; split; [by rewrite <- ?app_assoc|]; simpl;
                  rewrite ?elem_of_cons, elem_of_nil; intuition discriminate ] ] ].
Qed.

Example refused_write_keeps_the_record :
  ∃ w', revertFile fileF deletedOnReadOnly = (Normal false, w') ∧
        this w' = this deletedOnReadOnly.
Proof.
  destruct (noticed_failure_keeps_the_maps deletedOnReadOnly fileF)
    as (result & w' & Hrun & Hfalse & Hkept).
  rewrite (Hfalse (ex_intro _ "EACCES" eq_refl)) in Hrun, Hkept.
  exists w'. split; [exact Hrun|]. by apply Hkept.
Qed.

(** C7: not every failure of the revert's I/O makes [revertFile] return
    [false].  When the [save] of the replaced document resolves to [false]
    (the replacement is not committed to disk), or the [unlink] of a new
    file is refused, [revertFile] returns [true], removes the baseline and
    fires the notification, while the disk is as it was: the record is not
    retained although nothing was restored. *)
Theorem unnoticed_failure_reports_success (w : World) (uri : Uri) :
  revertFails w uri →
  ¬ failureNoticed w uri →
  ∃ w' attempted,
    revertFile uri w = (Normal true, w') ∧
    is_Some (snapshots (this w) !! fsPath uri) ∧
    snapshots (this w') !! fsPath uri = None ∧
    deletedFiles (this w') !! fsPath uri = None ∧
    disk (host w') = disk (host w) ∧
    effects w' = (effects w ++ attempted ++ [SnapshotsChanged])%list.
Proof.
  intros Hfails Hunnoticed.
  unfold revertFails, failureNoticed, writeRefused, unlinkRefused, replacementRefused,
    replacementRejected, saveRefused in *.
  destruct (revertFile uri w) as [r w'] eqn:Hrun.
  unfold revertFile, Fs.writeFile, Fs.unlink in Hrun. unfold_revert Hrun.
  repeat case_match; simplify_eq/=.
  all: try tauto.
  all: try (exfalso; apply Hunnoticed; split; [done|]; tauto).
  all: try (exfalso; destruct Hfails as [Hrejected|Hsave];
            [apply Hunnoticed; by split | congruence]).
  all: try (exfalso;
            match goal with
            | Hnone : Vscode.lookupDocument ?p ?docs = None,
              Hopened : Vscode.lookupDocument ?p (?docs ++ [(?p, ?c)]) = None |- _ =>
                by rewrite (lookupDocument_opened p c docs Hnone) in Hopened
            end).
  all: eexists _, _; split; [reflexivity|]; simpl; rewrite ?lookup_delete_eq.
  all: repeat split; eauto.
  all: try (first [ by instantiate (1 := []) | by rewrite <- app_assoc ]).
Qed.

Lemma unnoticed_failure_reports_success_witness :
  (∃ w',
     revertFile fileF trackedSaveRefused = (Normal true, w') ∧
     snapshots (this w') !! "/w/f.txt" = None ∧
     disk (host w') !! "/w/f.txt" = Some "v2") ∧
  (∃ w',
     revertFile fileF createdUnlinkRefused = (Normal true, w') ∧
     snapshots (this w') !! "/w/f.txt" = None ∧
     disk (host w') !! "/w/f.txt" = Some "hello").
Proof.
  split.
  - destruct (unnoticed_failure_reports_success trackedSaveRefused fileF)
      as (w' & attempted & Hrun & _ & Hgone & _ & Hdisk & _).
    + eapply bool_decide_unpack. vm_compute. exact I.
    + eapply bool_decide_unpack. vm_compute. exact I.
    + exists w'. split; [exact Hrun|]. split; [exact Hgone|]. rewrite Hdisk. reflexivity.
  - destruct (unnoticed_failure_reports_success createdUnlinkRefused fileF)
      as (w' & attempted & Hrun & _ & Hgone & _ & Hdisk & _).
    + eapply bool_decide_unpack. vm_compute. exact I.
    + eapply bool_decide_unpack. vm_compute. exact I.
    + exists w'. split; [exact Hrun|]. split; [exact Hgone|]. rewrite Hdisk. reflexivity.
Defined.

Lemma changesOf_uri c read snapshot :
  c ∈ changesOf read snapshot → FileChange.uri c = FileSnapshot.uri snapshot.
Proof.
  unfold changesOf. intros Hc.
  repeat case_match; try (by inversion Hc).
  all: by apply list_elem_of_singleton in Hc as ->.
Qed.

Lemma filter_none {A} (P : A → Prop) `{∀ x, Decision (P x)} (l : list A) :
  (∀ x, x ∈ l → ¬ P x) → filter P l = [].
Proof.
  induction l as [|x l IH]; intros Hnone; [done|].
  rewrite filter_cons, decide_False by (apply Hnone; left).
  apply IH. intros y Hy. apply Hnone. by right.
Qed.

(** A path that is a key of neither map has no entry in the change list. *)
Lemma untracked_has_no_entry w key :
  wellKeyed (this w) →
  snapshots (this w) !! key = None →
  deletedFiles (this w) !! key = None →
  entriesFor key (changeList w) = [].
Proof.
  intros [Hkeys Hkeys'] Hsnapshot Hdeleted. apply filter_none.
  intros c Hc Hpath. apply elem_of_changeList in Hc
    as [(key' & record & Hin & Hc)|(key' & record & Hin & ->)].
  - apply changesOf_uri in Hc. pose proof (Hkeys _ _ Hin). congruence.
  - pose proof (Hkeys' _ _ Hin). simpl in Hpath. congruence.
Qed.

Lemma wellKeyed_removed m key :
  wellKeyed m → wellKeyed (withDeletedFiles (delete key) (withSnapshots (delete key) m)).
Proof. intros [? ?]. split; by apply map_Forall_delete. Qed.

(** With a deleted record under the path of a modified baseline,
    [revertFile] succeeds by writing the record's content; the file then
    holds "v0", not the baseline's "v1", and the baseline still yields an
    entry. *)
Lemma revert_restores_the_deleted_record_first :
  snapshots (this deletedThenTracked) !! "/w/f.txt"
    = Some (FileSnapshot.mk fileF "v1" 0 "/w/f.txt" false) ∧
  observe fileF deletedThenTracked = Normal (Some "v2") ∧
  (revertFile fileF deletedThenTracked).1 = Normal true ∧
  observe fileF (run (revertFile fileF) deletedThenTracked) = Normal (Some "v0") ∧
  (getChangedFiles (run (revertFile fileF) deletedThenTracked)).1
    = Normal [modifiedChange (FileSnapshot.mk fileF "v1" 0 "/w/f.txt" false) "v0"].
Proof. repeat split; reflexivity. Qed.

(** C5, at the failing input: [fileF] has the baseline "v1" (not a new
    file, no deleted record) and holds "v2" on disk, and [save] resolves
    to [false] for it.  [revertFile] replaces the text of the document,
    does not look at what [save] resolved to, removes the baseline and
    returns [true]: the revert is reported as successful, the file on disk
    still holds "v2" and not the original "v1", and [getChangedFiles] has
    no entry for it any more. *)
Theorem reverted_file_keeps_the_edit_on_disk :
  snapshots (this trackedSaveRefused) !! "/w/f.txt"
    = Some (FileSnapshot.mk fileF "v1" 0 "/w/f.txt" false) ∧
  deletedFiles (this trackedSaveRefused) !! "/w/f.txt" = None ∧
  observe fileF trackedSaveRefused = Normal (Some "v2") ∧
  (getChangedFiles trackedSaveRefused).1
    = Normal [modifiedChange (FileSnapshot.mk fileF "v1" 0 "/w/f.txt" false) "v2"] ∧
  (revertFile fileF trackedSaveRefused).1 = Normal true ∧
  disk (host (run (revertFile fileF) trackedSaveRefused)) !! "/w/f.txt" = Some "v2" ∧
  textDocuments (host (run (revertFile fileF) trackedSaveRefused)) = [("/w/f.txt", "v1")] ∧
  snapshots (this (run (revertFile fileF) trackedSaveRefused)) !! "/w/f.txt" = None ∧
  (getChangedFiles (run (revertFile fileF) trackedSaveRefused)).1 = Normal [].
Proof. repeat split; reflexivity. Qed.

(** What does hold: for a baseline with [isNewFile = false] and no deleted
    record under the same path, a revert that returns [true] leaves the
    file's content, as the manager reads it, equal to the baseline's
    original content (on disk as well, unless the save resolved to
    [false]), and [getChangedFiles] then has no entry for that path. *)
Lemma revert_restores_original
    (w w' : World) (uri : Uri) (baseline : FileSnapshot.t) :
  wellKeyed (this w) →
  deletedFiles (this w) !! fsPath uri = None →
  snapshots (this w) !! fsPath uri = Some baseline →
  FileSnapshot.isNewFile baseline = false →
  revertFile uri w = (Normal true, w') →
  observe uri w' = Normal (Some (FileSnapshot.originalContent baseline)) ∧
  (saveOutcome (host w) !! fsPath uri ≠ Some SaveRefused →
   disk (host w') !! fsPath uri = Some (FileSnapshot.originalContent baseline)) ∧
  ∃ changes w'',
    getChangedFiles w' = (Normal changes, w'') ∧
    entriesFor (fsPath uri) changes = [].
Proof.
  intros Hkeys Hdeleted Hbaseline Hnew Hrun.
  unfold_revert Hrun. rewrite Hdeleted, Hbaseline, Hnew in Hrun. simpl in Hrun.
  assert (∀ docs text,
            Vscode.lookupDocument (fsPath uri) docs = Some text →
            Vscode.lookupDocument (fsPath uri)
              (Vscode.editDocument
                 (Vscode.mkEdit uri 0 (String.length text)
                    (FileSnapshot.originalContent baseline)) <$> docs)
            = Some (FileSnapshot.originalContent baseline)) as Hedited.
  { intros docs text Hdoc.
    pose proof (lookupDocument_edited
                  (Vscode.mkEdit uri 0 (String.length text)
                     (FileSnapshot.originalContent baseline)) docs) as Hedit.
    simpl in Hedit. rewrite Hedit, Hdoc. simpl. by rewrite replaceRange_all. }
  assert (∀ w1, this w1 = withDeletedFiles (delete (fsPath uri))
                            (withSnapshots (delete (fsPath uri)) (this w)) →
                ∃ changes w'', getChangedFiles w1 = (Normal changes, w'') ∧
                               entriesFor (fsPath uri) changes = []) as Hlist.
  { intros w1 Hthis. destruct (getChangedFiles_run w1) as (w'' & Hlist & _).
    exists (changeList w1), w''. split; [done|].
    apply untracked_has_no_entry; rewrite Hthis.
    - by apply wellKeyed_removed.
    - simpl. apply lookup_delete_eq.
    - simpl. apply lookup_delete_eq. }
  repeat case_match; simplify_eq/=.
  all: rewrite observe_host_only; unfold contentOn; simpl.
  all: repeat match goal with
       | H : Vscode.lookupDocument ?p ?d = _ |- context [Vscode.lookupDocument ?p ?d] =>
           rewrite H
       end; simpl.
  all: erewrite Hedited by done.
  all: split; [done|]; split; [|by apply Hlist].
  all: intros Hsave; simpl; first [by rewrite lookup_insert_eq | congruence].
Qed.

Example revert_restores_original_on_a_saved_file :
  observe fileF (run (revertFile fileF) trackedAndEdited) = Normal (Some "v1") ∧
  disk (host (run (revertFile fileF) trackedAndEdited)) !! "/w/f.txt" = Some "v1".
Proof.
  destruct (revert_restores_original trackedAndEdited
              (run (revertFile fileF) trackedAndEdited) fileF
              (FileSnapshot.mk fileF "v1" 0 "/w/f.txt" false))
    as (Hread & Hdisk & _).
  - eapply bool_decide_unpack. vm_compute. exact I.
  - reflexivity.
  - reflexivity.
  - reflexivity.
  - reflexivity.
  - split; [exact Hread|]. apply Hdisk. discriminate.
Qed.


(** ** What every operation preserves *)

Ltac unfold_perform H :=
  unfold perform, snapshotFile, autoSnapshotBeforeChange, trackNewFile, trackDeletedFile,
    acceptFile, acceptAndUpdateBaseline, clearAllSnapshots, revertFile,
    Vscode.openTextDocument, Vscode.getText, Vscode.applyEdit, Vscode.save,
    Fs.writeFile, Fs.unlink, removeSnapshot in H;
  repeat rewrite readFileContent_run in H;
  unfold_M; simpl in H.

Ltac settle_reads :=
  repeat match goal with
         | H : readFileContent _ _ = _ |- _ =>
             rewrite readFileContent_run in H; simplify_eq/=
         end.

Lemma perform_returns op w : ∃ w', perform op w = (Normal tt, w').
Proof.
  destruct (perform op w) as [r w'] eqn:Hrun.
  destruct op; unfold_perform Hrun;
    repeat (rewrite readFileContent_run in Hrun; simpl in Hrun);
    repeat case_match; simplify_eq/=; eauto.
Qed.

Ltac solve_map_Forall :=
  repeat first
    [ assumption
    | apply map_Forall_empty
    | apply map_Forall_delete
    | apply map_Forall_insert_2; [reflexivity|] ].

(** Records stay under the path of their own [uri]. *)
Lemma perform_wellKeyed op w :
  wellKeyed (this w) → wellKeyed (this (run (perform op) w)).
Proof.
  intros [Hkeys Hkeys']. unfold run.
  destruct (perform op w) as [r w'] eqn:Hrun.
  destruct op; unfold_perform Hrun;
    repeat (rewrite readFileContent_run in Hrun; simpl in Hrun);
    repeat case_match; simplify_eq/=; settle_reads.
  all: split; simpl; solve_map_Forall.
Qed.

Lemma performAll_wellKeyed ops w :
  wellKeyed (this w) → wellKeyed (this (run (performAll ops) w)).
Proof.
  revert w. induction ops as [|op ops IH]; intros w Hkeys; [done|].
  unfold run, performAll. cbn [forOf]. unfold bind.
  destruct (perform_returns op w) as (w1 & Hrun). rewrite Hrun.
  apply IH. pose proof (perform_wellKeyed op w Hkeys) as Hkeys1.
  unfold run in Hkeys1. by rewrite Hrun in Hkeys1.
Qed.

Lemma initial_wellKeyed : wellKeyed (this initial).
Proof. split; apply map_Forall_empty. Qed.

Ltac solve_disjoint :=
  repeat first
    [ assumption
    | apply map_disjoint_empty_l
    | apply map_disjoint_empty_r
    | apply map_disjoint_insert_r_2; [apply lookup_delete_eq|]
    | apply map_disjoint_delete_l
    | apply map_disjoint_delete_r ].

(** Every operation other than the three that add a baseline keeps the two
    maps apart. *)
Lemma perform_exclusive op w :
  isCapture op = false →
  exclusive (this w) → exclusive (this (run (perform op) w)).
Proof.
  unfold exclusive, run. intros Hop Hexclusive.
  destruct (perform op w) as [r w'] eqn:Hrun.
  destruct op; try discriminate Hop; unfold_perform Hrun;
    repeat (rewrite readFileContent_run in Hrun; simpl in Hrun);
    repeat case_match; simplify_eq/=; settle_reads.
  all: solve_disjoint.
Qed.

(** A capture keeps them apart too when the path has no deleted record. *)
Lemma capture_exclusive op uri w :
  op ∈ [SnapshotFile uri; AutoSnapshotBeforeChange uri; TrackNewFile uri] →
  deletedFiles (this w) !! fsPath uri = None →
  exclusive (this w) → exclusive (this (run (perform op) w)).
Proof.
  unfold exclusive, run. intros Hop Hnone Hexclusive.
  destruct (perform op w) as [r w'] eqn:Hrun.
  rewrite !elem_of_cons, elem_of_nil in Hop.
  destruct Hop as [->|[->|[->|[]]]]; unfold_perform Hrun;
    repeat (rewrite readFileContent_run in Hrun; simpl in Hrun);
    repeat case_match; simplify_eq/=; settle_reads.
  all: first [assumption | by apply map_disjoint_insert_l_2].
Qed.

(** ** The entries of one path *)

Section OnePath.

Context {V : Type}.
Implicit Types (l : list (string * V)) (key : string).

Lemma filter_all {A} (P : A → Prop) `{∀ x, Decision (P x)} (xs : list A) :
  (∀ x, x ∈ xs → P x) → filter P xs = xs.
Proof.
  induction xs as [|x xs IH]; intros Hall; [done|].
  rewrite filter_cons, decide_True by (apply Hall; left).
  f_equal. apply IH. intros y Hy. apply Hall. by right.
Qed.

Lemma filter_key_present l key (v : V) :
  NoDup (l.*1) → (key, v) ∈ l → filter (λ e, e.1 = key) l = [(key, v)].
Proof.
  induction l as [|[k' v'] l IH]; intros Hnodup Hin; [by apply elem_of_nil in Hin|].
  rewrite fmap_cons in Hnodup. apply NoDup_cons in Hnodup as [Hfresh Hnodup].
  rewrite filter_cons. simpl in *.
  apply elem_of_cons in Hin as [Heq|Hin].
  - injection Heq as <- <-. rewrite decide_True by done. f_equal.
    apply filter_none. intros [k v''] Hin Hk. simpl in Hk. subst k.
    apply Hfresh. apply list_elem_of_fmap. by exists (key, v'').
  - rewrite decide_False; [by apply IH|].
    intros ->. apply Hfresh. apply list_elem_of_fmap. by exists (key, v).
Qed.

Lemma filter_key_map_to_list (m : gmap string V) key :
  filter (λ e : string * V, e.1 = key) (map_to_list m)
  = match m !! key with Some v => [(key, v)] | None => [] end.
Proof.
  destruct (m !! key) as [v|] eqn:Hkey.
  - apply filter_key_present; [apply NoDup_fst_map_to_list|].
    by apply elem_of_map_to_list.
  - apply filter_none. intros [k v] Hin Hk. simpl in Hk. subst k.
    apply elem_of_map_to_list in Hin. congruence.
Qed.

Lemma entriesFor_bind l key (f : string * V → list FileChange.t) :
  (∀ e c, e ∈ l → c ∈ f e → fsPath (FileChange.uri c) = e.1) →
  entriesFor key (l ≫= f) = filter (λ e, e.1 = key) l ≫= f.
Proof.
  unfold entriesFor. induction l as [|e l IH]; intros Hown; [done|].
  rewrite bind_cons, filter_app, filter_cons.
  rewrite IH by (intros e' c He' Hc; apply (Hown e' c); [by right | done]).
  destruct (decide (e.1 = key)) as [Hkey|Hkey].
  - rewrite bind_cons. f_equal. apply filter_all.
    intros c Hc. rewrite <- Hkey. apply (Hown e c); [left | done].
  - rewrite filter_none; [done|].
    intros c Hc Hpath. apply Hkey. rewrite <- Hpath. symmetry.
    apply (Hown e c); [left | done].
Qed.

Lemma entriesFor_fmap l key (g : string * V → FileChange.t) :
  (∀ e, e ∈ l → fsPath (FileChange.uri (g e)) = e.1) →
  entriesFor key (g <$> l) = g <$> filter (λ e, e.1 = key) l.
Proof.
  unfold entriesFor. induction l as [|e l IH]; intros Hown; [done|].
  rewrite fmap_cons, !filter_cons, IH by (intros e' He'; apply Hown; by right).
  rewrite (Hown e) by left.
  by destruct (decide (e.1 = key)).
Qed.

End OnePath.

(** With records under their own paths, the entries [getChangedFiles]
    gives for a path are those of its baseline followed by that of its
    deleted record. *)
Lemma entriesFor_changeList key w :
  wellKeyed (this w) →
  entriesFor key (changeList w) = entriesOfPath key w.
Proof.
  intros [Hkeys Hkeys']. unfold changeList, entriesOfPath.
  unfold entriesFor at 1. rewrite filter_app. f_equal.
  - fold (entriesFor key (map_to_list (snapshots (this w)) ≫= λ entry,
            changesOf (observe (FileSnapshot.uri entry.2) w) entry.2)).
    rewrite entriesFor_bind.
    + rewrite filter_key_map_to_list.
      destruct (snapshots (this w) !! key); [|done].
      rewrite bind_cons. simpl. apply app_nil_r.
    + intros [k s] c Hin Hc. simpl in *.
      apply changesOf_uri in Hc. apply elem_of_map_to_list in Hin.
      rewrite Hc. by apply Hkeys.
  - fold (entriesFor key (deletedChange ∘ snd <$> map_to_list (deletedFiles (this w)))).
    rewrite entriesFor_fmap.
    + rewrite filter_key_map_to_list.
      by destruct (deletedFiles (this w) !! key).
    + intros [k s] Hin. simpl. apply elem_of_map_to_list in Hin. by apply Hkeys'.
Qed.

(** ** New files in the listing *)

(** C2, amended: for a baseline with [isNewFile = true], what
    [getChangedFiles] lists for its path is settled by reading the file.
    When the content can be read, the baseline yields its [created] entry,
    whatever the content is; when the file does not exist or the read
    fails, it yields no entry at all.  Besides there is only the [deleted]
    entry of a deleted record under the same path, if there is one.  So
    the [created] entry is listed whenever the content can be read, and no
    entry for the path is ever [modified]. *)
Theorem new_file_listed_as_created (w : World) (key : string) (baseline : FileSnapshot.t) :
  wellKeyed (this w) →
  snapshots (this w) !! key = Some baseline →
  FileSnapshot.isNewFile baseline = true →
  ∃ changes w',
    getChangedFiles w = (Normal changes, w') ∧
    entriesFor key changes
    = (match observe (FileSnapshot.uri baseline) w with
      | Normal (Some currentContent) =>
          [FileChange.mk (FileSnapshot.uri baseline) (FileSnapshot.relativePath baseline)
             "" currentContent (FileSnapshot.snapshotTime baseline) created
             (additions (countChanges "" currentContent))
             (deletions (countChanges "" currentContent))]
      | Normal None | Throw _ => []
      end ++
      match deletedFiles (this w) !! key with
      | Some record =>
          [FileChange.mk (FileSnapshot.uri record) (FileSnapshot.relativePath record)
             (FileSnapshot.originalContent record) "" (FileSnapshot.snapshotTime record)
             deleted 0 (Reference.lineCount (FileSnapshot.originalContent record))]
      | None => []
      end)%list ∧
    (∀ currentContent,
       observe (FileSnapshot.uri baseline) w = Normal (Some currentContent) →
       createdChange baseline currentContent ∈ changes) ∧
    (∀ c, c ∈ changes → fsPath (FileChange.uri c) = key →
       FileChange.changeType c ≠ modified ∧
       (FileChange.changeType c = created →
        ∃ currentContent,
          observe (FileSnapshot.uri baseline) w = Normal (Some currentContent) ∧
          c = createdChange baseline currentContent)).
Proof.
  intros Hkeyed Hin Hnew. pose proof Hkeyed as [Hkeys Hkeys'].
  destruct (getChangedFiles_run w) as (w' & Hrun & _).
  exists (changeList w), w'. split; [done|]. split; [|split].
  - rewrite entriesFor_changeList by done. unfold entriesOfPath. rewrite Hin.
    unfold changesOf. rewrite Hnew. f_equal.
    destruct (deletedFiles (this w) !! key) as [record|]; [|done].
    unfold deletedChange. by rewrite split_length.
  - intros currentContent Hread. apply elem_of_changeList. left.
    exists key, baseline. split; [done|]. rewrite Hread. simpl. rewrite Hnew. left.
  - intros c Hc Hpath. apply elem_of_changeList in Hc
      as [(key' & record & Hin' & Hc)|(key' & record & Hin' & ->)].
    + assert (key' = key) as ->.
      { apply Hkeys in Hin'. unfold changesOf in Hc.
        repeat case_match; try by inversion Hc.
        all: apply list_elem_of_singleton in Hc as ->; simpl in *; congruence. }
      assert (record = baseline) as -> by congruence.
      unfold changesOf in Hc. rewrite Hnew in Hc.
      destruct (observe _ w) as [[currentContent|]|e]; try by inversion Hc.
      apply list_elem_of_singleton in Hc as ->. split; [done|]. eauto.
    + simpl. split; [done|]. intros [=].
Qed.

Lemma new_file_listed_as_created_witness :
  ∃ changes w',
    getChangedFiles createdWithText = (Normal changes, w') ∧
    entriesFor "/w/f.txt" changes
    = [FileChange.mk fileF "/w/f.txt" "" "hello" 0 created 1 1].
Proof.
  destruct (new_file_listed_as_created createdWithText "/w/f.txt"
              (FileSnapshot.mk fileF "" 0 "/w/f.txt" true))
    as (changes & w' & Hrun & Hentries & _).
  - eapply bool_decide_unpack. vm_compute. exact I.
  - reflexivity.
  - reflexivity.
  - exists changes, w'. split; [exact Hrun|]. rewrite Hentries. reflexivity.
Defined.

(** ** Capturing a file for the first time *)

Lemma snapshotFile_fresh uri content w :
  snapshots (this w) !! fsPath uri = None →
  observe uri w = Normal (Some content) →
  snapshotFile uri w
  = (Normal tt,
     emit SnapshotsChanged
       (withThis (withSnapshots (insert (fsPath uri) (capturedBaseline uri content false w))) w)).
Proof.
  intros Hnone Hread.
  unfold snapshotFile, tryCatch, bind at 1. rewrite readFileContent_run, Hread.
  unfold_M. simpl. rewrite Hnone.
  by rewrite bool_decide_eq_false_2 by (by intros [? [=]]).
Qed.

Lemma autoSnapshotBeforeChange_fresh uri content w :
  snapshots (this w) !! fsPath uri = None →
  observe uri w = Normal (Some content) →
  autoSnapshotBeforeChange uri w
  = (Normal tt,
     emit SnapshotsChanged
       (withThis (withSnapshots (insert (fsPath uri) (capturedBaseline uri content false w))) w)).
Proof.
  intros Hnone Hread.
  unfold autoSnapshotBeforeChange, bind at 1, snapshotsHas, gets. rewrite Hnone.
  rewrite bool_decide_eq_false_2 by (by intros [? [=]]).
  unfold tryCatch, bind at 1. rewrite readFileContent_run, Hread.
  by unfold_M.
Qed.

(** X1: the first capture of a readable file ([snapshotFile] or
    [autoSnapshotBeforeChange]) records what [readFileContent] gave as the
    original, not as a new file, fires once and touches nothing else; a
    listing made right after has no entry for that file. *)
Theorem fresh_capture_has_no_entry (w : World) (uri : Uri) (content : string) :
  wellKeyed (this w) →
  snapshots (this w) !! fsPath uri = None →
  deletedFiles (this w) !! fsPath uri = None →
  observe uri w = Normal (Some content) →
  ∃ w1,
    snapshotFile uri w = (Normal tt, w1) ∧
    autoSnapshotBeforeChange uri w = (Normal tt, w1) ∧
    snapshots (this w1)
      = <[fsPath uri := capturedBaseline uri content false w]> (snapshots (this w)) ∧
    deletedFiles (this w1) = deletedFiles (this w) ∧
    host w1 = host w ∧
    effects w1 = (effects w ++ [SnapshotsChanged])%list ∧
    ∃ changes w2,
      getChangedFiles w1 = (Normal changes, w2) ∧
      entriesFor (fsPath uri) changes = [].
Proof.
  intros [Hkeys Hkeys'] Hnone Hdeleted Hread.
  eexists. split; [by apply snapshotFile_fresh|].
  split; [by apply autoSnapshotBeforeChange_fresh|].
  do 4 (split; [done|]).
  match goal with |- ∃ changes w2, getChangedFiles ?w1 = _ ∧ _ =>
    destruct (getChangedFiles_run w1) as (w2 & Hrun & _);
    exists (changeList w1), w2; split; [exact Hrun|];
    rewrite (entriesFor_changeList (fsPath uri) w1)
  end.
  - unfold entriesOfPath. simpl. rewrite lookup_insert_eq, Hdeleted. simpl.
    rewrite (observe_host uri w) by done. rewrite Hread. simpl.
    rewrite bool_decide_eq_false_2 by (by intros []). done.
  - split; simpl; [|done]. by apply map_Forall_insert_2.
Qed.

Lemma fresh_capture_has_no_entry_witness :
  ∃ w1, snapshotFile fileF (onDisk "/w/f.txt" "v1" initial) = (Normal tt, w1) ∧
        snapshots (this w1) !! "/w/f.txt"
          = Some (FileSnapshot.mk fileF "v1" 0 "/w/f.txt" false).
Proof.
  destruct (fresh_capture_has_no_entry (onDisk "/w/f.txt" "v1" initial) fileF "v1")
    as (w1 & Hrun & _ & Hsnapshots & _).
  - eapply bool_decide_unpack. vm_compute. exact I.
  - reflexivity.
  - reflexivity.
  - reflexivity.
  - exists w1. split; [exact Hrun|]. rewrite Hsnapshots. reflexivity.
Defined.

(** X2: for a baseline of an existing file (not a new file, no deleted
    record under its path) whose content can be read, the listing has
    exactly one entry for the path, of kind [modified] with the counts of
    [countChanges], when the content differs from the original, and no
    entry when it is the same. *)
Theorem existing_file_listed_iff_changed
    (w : World) (key : string) (baseline : FileSnapshot.t) (content : string) :
  wellKeyed (this w) →
  snapshots (this w) !! key = Some baseline →
  FileSnapshot.isNewFile baseline = false →
  deletedFiles (this w) !! key = None →
  observe (FileSnapshot.uri baseline) w = Normal (Some content) →
  ∃ changes w',
    getChangedFiles w = (Normal changes, w') ∧
    entriesFor key changes
    = if decide (content = FileSnapshot.originalContent baseline) then []
      else [FileChange.mk (FileSnapshot.uri baseline) (FileSnapshot.relativePath baseline)
              (FileSnapshot.originalContent baseline) content
              (FileSnapshot.snapshotTime baseline) modified
              (additions (countChanges (FileSnapshot.originalContent baseline) content))
              (deletions (countChanges (FileSnapshot.originalContent baseline) content))].
Proof.
  intros Hkeys Hbaseline Hnew Hdeleted Hread.
  destruct (getChangedFiles_run w) as (w' & Hrun & _).
  exists (changeList w), w'. split; [done|].
  rewrite entriesFor_changeList by done.
  unfold entriesOfPath. rewrite Hbaseline, Hdeleted, Hread. simpl. rewrite Hnew.
  rewrite app_nil_r.
  destruct (decide (content = FileSnapshot.originalContent baseline)).
  - by rewrite bool_decide_eq_false_2 by (by intros []).
  - by rewrite bool_decide_eq_true_2.
Qed.

Lemma existing_file_listed_iff_changed_witness :
  ∃ changes w',
    getChangedFiles trackedAndEdited = (Normal changes, w') ∧
    entriesFor "/w/f.txt" changes
    = [FileChange.mk fileF "/w/f.txt" "v1" "v2" 0 modified 1 1].
Proof.
  destruct (existing_file_listed_iff_changed trackedAndEdited "/w/f.txt"
              (FileSnapshot.mk fileF "v1" 0 "/w/f.txt" false) "v2")
    as (changes & w' & Hrun & Hentries).
  - eapply bool_decide_unpack. vm_compute. exact I.
  - reflexivity.
  - reflexivity.
  - reflexivity.
  - reflexivity.
  - exists changes, w'. split; [exact Hrun|]. rewrite Hentries. reflexivity.
Defined.

(** ** Reading *)

Lemma observe_open_document uri w text :
  Vscode.lookupDocument (fsPath uri) (textDocuments (host w)) = Some text →
  observe uri w = Normal (Some text).
Proof. intros Hdoc. rewrite observe_host_only. unfold contentOn. by rewrite Hdoc. Qed.

(** X3: [readFileContent] changes nothing and answers from the open
    document when there is one, whatever the disk holds; otherwise from the
    disk, where a missing file and an [ENOENT] failure give [null] and any
    other failure is thrown on to the caller. *)
Theorem readFileContent_cases (uri : Uri) (w : World) :
  (readFileContent uri w).2 = w ∧
  (∀ text,
     Vscode.lookupDocument (fsPath uri) (textDocuments (host w)) = Some text →
     observe uri w = Normal (Some text)) ∧
  (Vscode.lookupDocument (fsPath uri) (textDocuments (host w)) = None →
   (∀ code,
      readFileError (host w) !! fsPath uri = Some code →
      observe uri w
      = if decide (code = "ENOENT") then Normal None else Throw (ErrnoException code)) ∧
   (readFileError (host w) !! fsPath uri = None →
    observe uri w = Normal (disk (host w) !! fsPath uri))).
Proof.
  split; [by rewrite readFileContent_run|].
  rewrite observe_host_only. unfold contentOn.
  split; [by intros text ->|]. intros ->. split.
  - intros code ->. by destruct (decide (code = "ENOENT")); case_bool_decide.
  - intros ->. by destruct (disk (host w) !! fsPath uri).
Qed.

Lemma autoSnapshotBeforeChange_missing uri w :
  snapshots (this w) !! fsPath uri = None →
  observe uri w = Normal None →
  autoSnapshotBeforeChange uri w = (Normal tt, w).
Proof.
  intros Hnone Hread.
  unfold autoSnapshotBeforeChange, bind at 1, snapshotsHas, gets. rewrite Hnone.
  rewrite bool_decide_eq_false_2 by (by intros [? [=]]).
  unfold tryCatch, bind at 1. by rewrite readFileContent_run, Hread.
Qed.

Lemma autoSnapshotBeforeChange_failing uri w e :
  snapshots (this w) !! fsPath uri = None →
  observe uri w = Throw e →
  autoSnapshotBeforeChange uri w
  = (Normal tt, emit (ConsoleError "Failed to auto-snapshot file") w).
Proof.
  intros Hnone Hread.
  unfold autoSnapshotBeforeChange, bind at 1, snapshotsHas, gets. rewrite Hnone.
  rewrite bool_decide_eq_false_2 by (by intros [? [=]]).
  unfold tryCatch, bind at 1. by rewrite readFileContent_run, Hread.
Qed.

(** X4: a file that cannot be read is not captured.  When the file does
    not exist, [snapshotFile] and (without a baseline)
    [autoSnapshotBeforeChange] do nothing at all; when the read fails
    otherwise, they log the failure and change nothing else.  Neither
    throws. *)
Theorem unreadable_file_is_not_captured (uri : Uri) (w : World) :
  (observe uri w = Normal None →
   snapshotFile uri w = (Normal tt, w) ∧
   (snapshots (this w) !! fsPath uri = None →
    autoSnapshotBeforeChange uri w = (Normal tt, w))) ∧
  (∀ e, observe uri w = Throw e →
   snapshotFile uri w = (Normal tt, emit (ConsoleError "Failed to snapshot file") w) ∧
   (snapshots (this w) !! fsPath uri = None →
    autoSnapshotBeforeChange uri w
    = (Normal tt, emit (ConsoleError "Failed to auto-snapshot file") w))).
Proof.
  split.
  - intros Hread. split.
    + unfold snapshotFile, tryCatch, bind at 1. by rewrite readFileContent_run, Hread.
    + intros Hnone. by apply autoSnapshotBeforeChange_missing.
  - intros e Hread. split.
    + unfold snapshotFile, tryCatch, bind at 1. by rewrite readFileContent_run, Hread.
    + intros Hnone. by apply (autoSnapshotBeforeChange_failing uri w e).
Qed.

(** ** Deleting again, reverting what is new or unknown *)

(** X5: without a baseline, [trackDeletedFile] records the fallback, or the
    empty string when there is none; and a second [trackDeletedFile] on the
    same path replaces the record by one holding the second call's
    fallback, also when the first one had preserved a baseline's
    original. *)
Theorem repeated_deletion_keeps_last_fallback
    (uri : Uri) (first second : option string) (w : World) :
  ∃ w1 w2,
    trackDeletedFile uri first w = (Normal tt, w1) ∧
    trackDeletedFile uri second w1 = (Normal tt, w2) ∧
    (snapshots (this w) !! fsPath uri = None →
     FileSnapshot.originalContent <$> deletedFiles (this w1) !! fsPath uri
     = Some (default "" first)) ∧
    FileSnapshot.originalContent <$> deletedFiles (this w2) !! fsPath uri
    = Some (default "" second) ∧
    snapshots (this w2) !! fsPath uri = None.
Proof.
  destruct (trackDeletedFile_run uri first w) as (w1 & Hrun1 & Hs1 & Hd1 & _).
  destruct (trackDeletedFile_run uri second w1) as (w2 & Hrun2 & Hs2 & Hd2 & _).
  exists w1, w2. split; [done|]. split; [done|]. split; [|split].
  - intros Hnone. by rewrite Hd1, lookup_insert_eq, Hnone.
  - rewrite Hd2, lookup_insert_eq, Hs1, lookup_delete_eq. done.
  - by rewrite Hs2, lookup_delete_eq.
Qed.

(** X6: reverting a new-file baseline (no deleted record under the path)
    always reports success: one [unlink] is attempted, the path leaves both
    maps and the notification fires once.  The file is gone from the disk
    unless the [unlink] was refused, in which case it stays although the
    revert returned [true]. *)
Theorem revert_of_new_file (w : World) (uri : Uri) (baseline : FileSnapshot.t) :
  deletedFiles (this w) !! fsPath uri = None →
  snapshots (this w) !! fsPath uri = Some baseline →
  FileSnapshot.isNewFile baseline = true →
  ∃ w',
    revertFile uri w = (Normal true, w') ∧
    snapshots (this w') = delete (fsPath uri) (snapshots (this w)) ∧
    deletedFiles (this w') = deletedFiles (this w) ∧
    effects w' = (effects w ++ [FsUnlink (fsPath uri); SnapshotsChanged])%list ∧
    textDocuments (host w') = textDocuments (host w) ∧
    disk (host w')
    = if decide (is_Some (unlinkError (host w) !! fsPath uri)) then disk (host w)
      else delete (fsPath uri) (disk (host w)).
Proof.
  intros Hdeleted Hbaseline Hnew.
  unfold revertFile, Fs.unlink, removeSnapshot. unfold_M. simpl.
  rewrite Hdeleted, Hbaseline, Hnew. simpl.
  destruct (unlinkError (host w) !! fsPath uri) as [code|] eqn:Hfault; simpl;
    [|destruct (disk (host w) !! fsPath uri) as [content|] eqn:Hdisk; simpl].
  all: eexists; split; [done|]; simpl.
  all: rewrite (delete_id _ _ Hdeleted), <- app_assoc.
  all: repeat split; try done.
  by rewrite delete_id.
Qed.

Lemma revert_of_new_file_witness :
  ∃ w', revertFile fileF createdWithText = (Normal true, w') ∧
        disk (host w') !! "/w/f.txt" = None.
Proof.
  destruct (revert_of_new_file createdWithText fileF
              (FileSnapshot.mk fileF "" 0 "/w/f.txt" true))
    as (w' & Hrun & _ & _ & _ & _ & Hdisk).
  - reflexivity.
  - reflexivity.
  - reflexivity.
  - exists w'. split; [exact Hrun|]. rewrite Hdisk. reflexivity.
Defined.

(** X7: reverting a path that is in neither map returns [false] and does
    nothing: no file call, no log, no notification. *)
Theorem revert_of_untracked_path (w : World) (uri : Uri) :
  deletedFiles (this w) !! fsPath uri = None →
  snapshots (this w) !! fsPath uri = None →
  revertFile uri w = (Normal false, w).
Proof.
  intros Hdeleted Hnone. unfold revertFile. unfold_M. simpl.
  by rewrite Hdeleted, Hnone.
Qed.

Lemma revert_of_untracked_path_witness :
  revertFile fileF initial = (Normal false, initial).
Proof. apply revert_of_untracked_path; reflexivity. Defined.

(** ** Untracking and clearing *)

Lemma entriesOfPath_same_records key w w' :
  snapshots (this w') !! key = snapshots (this w) !! key →
  deletedFiles (this w') !! key = deletedFiles (this w) !! key →
  host w' = host w →
  entriesOfPath key w' = entriesOfPath key w.
Proof.
  intros Hs Hd Hhost. unfold entriesOfPath. rewrite Hs, Hd.
  destruct (snapshots (this w) !! key); [|done].
  by rewrite (observe_host _ w w').
Qed.

(** X8: [acceptFile] (which is [removeSnapshot]) fires once and touches no
    file, also for a path that is not tracked; afterwards the listing has
    no entry for the path and the same entries as before for every other
    path. *)
Theorem acceptFile_forgets_only_the_path (w : World) (uri : Uri) :
  wellKeyed (this w) →
  ∃ w' before after w1 w2,
    acceptFile uri w = (Normal tt, w') ∧
    host w' = host w ∧
    effects w' = (effects w ++ [SnapshotsChanged])%list ∧
    getChangedFiles w = (Normal before, w1) ∧
    getChangedFiles w' = (Normal after, w2) ∧
    ∀ key, entriesFor key after
           = if decide (key = fsPath uri) then [] else entriesFor key before.
Proof.
  intros Hkeys.
  set (w' := emit SnapshotsChanged
               (withThis (withDeletedFiles (delete (fsPath uri)))
                  (withThis (withSnapshots (delete (fsPath uri))) w))).
  assert (wellKeyed (this w')) as Hkeys'
    by (destruct Hkeys; split; by apply map_Forall_delete).
  destruct (getChangedFiles_run w) as (w1 & Hbefore & _).
  destruct (getChangedFiles_run w') as (w2 & Hafter & _).
  exists w', (changeList w), (changeList w'), w1, w2.
  split; [reflexivity|]. do 4 (split; [done|]).
  intros key. rewrite !entriesFor_changeList by done.
  destruct (decide (key = fsPath uri)) as [->|Hother].
  - unfold entriesOfPath. simpl. by rewrite !lookup_delete_eq.
  - apply entriesOfPath_same_records; simpl; [| |done]; by rewrite lookup_delete_ne.
Qed.

Lemma acceptFile_forgets_only_the_path_witness :
  ∃ w', acceptFile fileF trackedAndEdited = (Normal tt, w') ∧
        host w' = host trackedAndEdited.
Proof.
  destruct (acceptFile_forgets_only_the_path trackedAndEdited fileF)
    as (w' & _ & _ & _ & _ & Hrun & Hhost & _).
  - eapply bool_decide_unpack. vm_compute. exact I.
  - exists w'. done.
Defined.

(** X9: after [clearAllSnapshots] the count is zero and the listing is
    empty, whatever was tracked; no file is touched. *)
Theorem clearAllSnapshots_empties (w : World) :
  ∃ w' w2,
    clearAllSnapshots w = (Normal tt, w') ∧
    host w' = host w ∧
    effects w' = (effects w ++ [SnapshotsChanged])%list ∧
    getSnapshotCount w' = (Normal 0, w') ∧
    getChangedFiles w' = (Normal [], w2).
Proof.
  eexists _, _. split; [reflexivity|]. split; [done|]. split; [done|]. split.
  - unfold getSnapshotCount, gets. simpl. by rewrite map_size_empty.
  - unfold getChangedFiles. unfold_M. simpl. rewrite !map_to_list_empty. reflexivity.
Qed.

(** X10: [getChangedFiles] never throws and changes neither the maps nor
    the host; it returns one entry for each deleted record and at most one
    for each baseline, so between [deletedFiles.size] and
    [getSnapshotCount()] entries. *)
Theorem getChangedFiles_is_bounded (w : World) :
  ∃ changes w',
    getChangedFiles w = (Normal changes, w') ∧
    this w' = this w ∧ host w' = host w ∧
    (size (deletedFiles (this w)) ≤ length changes)%nat ∧
    (getSnapshotCount w).1 = Normal (size (snapshots (this w)) + size (deletedFiles (this w))) ∧
    (length changes ≤ size (snapshots (this w)) + size (deletedFiles (this w)))%nat.
Proof.
  destruct (getChangedFiles_run w) as (w' & Hrun & Hthis & Hhost).
  exists (changeList w), w'. do 3 (split; [done|]).
  unfold changeList. rewrite length_app, length_fmap, !length_map_to_list.
  split; [lia|]. split; [done|].
  apply Nat.add_le_mono_r. rewrite <- length_map_to_list.
  induction (map_to_list (snapshots (this w))) as [|[k s] l IH]; [done|].
  rewrite bind_cons, length_app. simpl.
  assert (length (changesOf (observe (FileSnapshot.uri s) w) s) ≤ 1)%nat; [|lia].
  unfold changesOf. repeat case_match; simpl; lia.
Qed.

(** ** Accepting, case by case *)

(** X11: accepting a baseline (no deleted record under the path) whose
    content can be read runs the callback once, with the [uri] and that
    content, before the baseline is dropped and the notification fired.  If
    the callback throws, the error is logged and the baseline stays, with
    no notification.  Without a callback the baseline is just dropped. *)
Theorem accept_runs_the_callback_first
    (w : World) (uri : Uri) (baseline : FileSnapshot.t) (content : string)
    (callback : Uri → string → M unit) :
  deletedFiles (this w) !! fsPath uri = None →
  snapshots (this w) !! fsPath uri = Some baseline →
  observe uri w = Normal (Some content) →
  acceptAndUpdateBaseline uri (Some callback) w
  = match callback uri content w with
    | (Normal _, w1) =>
        (Normal tt, emit SnapshotsChanged (withThis (withSnapshots (delete (fsPath uri))) w1))
    | (Throw _, w1) =>
        (Normal tt, emit (ConsoleError "Failed to accept and update baseline") w1)
    end ∧
  acceptAndUpdateBaseline uri None w
  = (Normal tt, emit SnapshotsChanged (withThis (withSnapshots (delete (fsPath uri))) w)).
Proof.
  intros Hdeleted Hbaseline Hread.
  split.
  all: unfold acceptAndUpdateBaseline, bind at 1, deletedFilesHas, gets.
  all: rewrite Hdeleted.
  all: rewrite bool_decide_eq_false_2 by (by intros [? [=]]).
  all: unfold bind at 1, snapshotsGet, gets; rewrite Hbaseline.
  all: unfold tryCatch, bind at 1 2; rewrite readFileContent_run, Hread.
  - unfold bind. by destruct (callback uri content w) as [[[]|e] w1].
  - reflexivity.
Qed.

Lemma accept_runs_the_callback_first_witness :
  acceptAndUpdateBaseline fileF (Some (λ _ _, throw HostError)) trackedAndEdited
  = (Normal tt, emit (ConsoleError "Failed to accept and update baseline") trackedAndEdited).
Proof.
  apply (accept_runs_the_callback_first trackedAndEdited fileF
           (FileSnapshot.mk fileF "v1" 0 "/w/f.txt" false) "v2"
           (λ _ _, throw HostError)); reflexivity.
Defined.

(** X12: accepting a path that has a deleted record drops that record and
    fires once; the file is not read, the callback is not run and a
    baseline under the same path is left as it is. *)
Theorem accept_of_deleted_record
    (w : World) (uri : Uri) (record : FileSnapshot.t)
    (updateCacheCallback : option (Uri → string → M unit)) :
  deletedFiles (this w) !! fsPath uri = Some record →
  acceptAndUpdateBaseline uri updateCacheCallback w
  = (Normal tt,
     emit SnapshotsChanged (withThis (withDeletedFiles (delete (fsPath uri))) w)).
Proof.
  intros Hdeleted.
  unfold acceptAndUpdateBaseline, bind at 1, deletedFilesHas, gets.
  rewrite Hdeleted. by rewrite bool_decide_eq_true_2 by eauto.
Qed.

Lemma accept_of_deleted_record_witness :
  acceptAndUpdateBaseline fileF (Some (λ _ _, throw HostError)) deletedOnReadOnly
  = (Normal tt,
     emit SnapshotsChanged (withThis (withDeletedFiles (delete "/w/f.txt")) deletedOnReadOnly)).
Proof.
  apply (accept_of_deleted_record deletedOnReadOnly fileF
           (FileSnapshot.mk fileF "v0" 0 "/w/f.txt" false)); reflexivity.
Defined.

(** X13: accepting does nothing for a path in neither map; and when the
    read of a baseline's file fails with an error other than not-found, it
    logs the failure and keeps the baseline, without running the callback or
    firing. *)
Theorem accept_that_cannot_proceed
    (w : World) (uri : Uri)
    (updateCacheCallback : option (Uri → string → M unit)) :
  deletedFiles (this w) !! fsPath uri = None →
  (snapshots (this w) !! fsPath uri = None →
   acceptAndUpdateBaseline uri updateCacheCallback w = (Normal tt, w)) ∧
  (∀ e, is_Some (snapshots (this w) !! fsPath uri) →
        observe uri w = Throw e →
        acceptAndUpdateBaseline uri updateCacheCallback w
        = (Normal tt, emit (ConsoleError "Failed to accept and update baseline") w)).
Proof.
  intros Hdeleted. split.
  all: unfold acceptAndUpdateBaseline, bind at 1, deletedFilesHas, gets.
  all: rewrite Hdeleted.
  all: rewrite bool_decide_eq_false_2 by (by intros [? [=]]).
  all: unfold bind at 1, snapshotsGet, gets.
  - by intros ->.
  - intros e [baseline ->] Hread.
    unfold tryCatch, bind at 1 2. by rewrite readFileContent_run, Hread.
Qed.

Lemma accept_that_cannot_proceed_witness :
  acceptAndUpdateBaseline fileF None initial = (Normal tt, initial).
Proof. apply (accept_that_cannot_proceed initial fileF None); reflexivity. Defined.

(** ** Snapshotting every open file *)

Lemma lookupDocument_elem_of path text docs :
  (path, text) ∈ docs → is_Some (Vscode.lookupDocument path docs).
Proof.
  unfold Vscode.lookupDocument. induction docs as [|[p t] docs IH]; intros Hin.
  - by apply elem_of_nil in Hin.
  - simpl. case_bool_decide as Hp; simpl; [eauto|].
    apply elem_of_cons in Hin as [[= -> ->]|Hin]; [done|]. by apply IH.
Qed.

Lemma snapshotIfMissing_run doc count w :
  snapshotIfMissing doc count w
  = if bool_decide (is_Some (snapshots (this w) !! doc.1)) then (Normal count, w)
    else match snapshotFile (mkUri doc.1) w with
         | (Normal _, w') => (Normal (S count), w')
         | (Throw e, w') => (Throw e, w')
         end.
Proof.
  unfold snapshotIfMissing. unfold_M. simpl.
  by destruct (bool_decide (is_Some (snapshots (this w) !! doc.1))).
Qed.

Lemma snapshotAllOpenFiles_loop (docs : list (string * string)) (count : nat) (w : World) :
  (∀ doc, doc ∈ docs → is_Some (Vscode.lookupDocument doc.1 (textDocuments (host w)))) →
  ∃ added w',
    forOf docs snapshotIfMissing count w = (Normal (count + added), w') ∧
    host w' = host w ∧
    deletedFiles (this w') = deletedFiles (this w) ∧
    size (snapshots (this w')) = size (snapshots (this w)) + added ∧
    (∀ key s, snapshots (this w) !! key = Some s → snapshots (this w') !! key = Some s) ∧
    (∀ doc, doc ∈ docs → is_Some (snapshots (this w') !! doc.1)).
Proof.
  revert count w. induction docs as [|[path text] docs IH]; intros count w Hopen.
  - exists 0, w. simpl. unfold ret. rewrite !Nat.add_0_r.
    repeat split; try done. intros doc Hdoc. by apply elem_of_nil in Hdoc.
  - cbn [forOf]. unfold bind at 1. rewrite snapshotIfMissing_run. simpl.
    destruct (snapshots (this w) !! path) as [existing|] eqn:Hhas.
    + rewrite bool_decide_eq_true_2 by eauto.
      destruct (IH count w) as (added & w' & Hrun & Hhost & Hdel & Hsize & Hold & Hall).
      { intros doc Hdoc. apply Hopen. by right. }
      exists added, w'. split; [done|]. do 4 (split; [done|]).
      intros doc Hdoc. apply elem_of_cons in Hdoc as [->|Hdoc]; [|by apply Hall].
      simpl. rewrite (Hold _ _ Hhas). eauto.
    + rewrite bool_decide_eq_false_2 by (by intros [? [=]]).
      destruct (Hopen (path, text)) as [current Hcurrent]; [left|]. simpl in Hcurrent.
      rewrite (snapshotFile_fresh (mkUri path) current w Hhas)
        by (by apply observe_open_document).
      match goal with |- context [forOf docs _ (S count) ?w1] =>
        destruct (IH (S count) w1) as (added & w' & Hrun & Hhost & Hdel & Hsize & Hold & Hall)
      end.
      { intros doc Hdoc. simpl. apply Hopen. by right. }
      exists (S added), w'. rewrite Hrun. split; [f_equal; f_equal; lia|].
      split; [done|]. split; [done|]. split; [|split].
      * rewrite Hsize. simpl. rewrite map_size_insert_None by done. lia.
      * intros key s Hkey. apply Hold. simpl.
        rewrite lookup_insert_ne; [done|]. intros <-. simpl in Hkey. congruence.
      * intros doc Hdoc. apply elem_of_cons in Hdoc as [->|Hdoc]; [|by apply Hall].
        simpl. erewrite Hold; [eauto|]. simpl. apply lookup_insert_eq.
Qed.

(** X14: [snapshotAllOpenFiles] returns the number of baselines it added:
    the active map grows by exactly that many records and keeps every
    record it had; afterwards every open document that passed the filter
    has a baseline.  The deleted records and the host are untouched. *)
Theorem snapshotAllOpenFiles_counts_what_it_adds
    (isSavedFile : string * string → bool) (w : World) :
  ∃ count w',
    snapshotAllOpenFiles isSavedFile w = (Normal count, w') ∧
    host w' = host w ∧
    deletedFiles (this w') = deletedFiles (this w) ∧
    size (snapshots (this w')) = size (snapshots (this w)) + count ∧
    (∀ key s, snapshots (this w) !! key = Some s → snapshots (this w') !! key = Some s) ∧
    (∀ doc, doc ∈ textDocuments (host w) → isSavedFile doc = true →
            is_Some (snapshots (this w') !! doc.1)).
Proof.
  unfold snapshotAllOpenFiles, bind at 1, gets.
  destruct (snapshotAllOpenFiles_loop
              (List.filter isSavedFile (textDocuments (host w))) 0 w)
    as (added & w' & Hrun & Hhost & Hdel & Hsize & Hold & Hall).
  { intros [path text] Hdoc. apply list_elem_of_In, filter_In in Hdoc as [Hdoc _].
    apply list_elem_of_In in Hdoc. by eapply lookupDocument_elem_of. }
  exists added, w'. split; [exact Hrun|]. do 4 (split; [done|]).
  intros doc Hdoc Hsaved. apply Hall.
  apply list_elem_of_In, filter_In. split; [by apply list_elem_of_In | done].
Qed.

(** ** Invariants of the two maps *)

Lemma step_returns s w : ∃ w', step s w = (Normal tt, w').
Proof. destruct s as [op|h]; [apply perform_returns | by eexists]. Qed.

(** X15: whatever operations are performed on a new manager, in whatever
    order and with the host changing arbitrarily in between, every record
    of both maps sits under the [fsPath] of its own [uri]. *)
Theorem records_stay_under_their_paths
    (l : list Step) (root : option string) (h : Host) :
  wellKeyed (this (run (steps l) (mkWorld (newManager root) h []))).
Proof.
  assert (∀ w, wellKeyed (this w) → wellKeyed (this (run (steps l) w))) as Hall.
  { induction l as [|s l IH]; intros w Hkeys; [done|].
    unfold run, steps. cbn [forOf]. unfold bind.
    destruct (step_returns s w) as (w1 & Hrun). rewrite Hrun.
    apply IH. destruct s as [op|h']; simpl in Hrun.
    - pose proof (perform_wellKeyed op w Hkeys) as Hkeys1.
      unfold run in Hkeys1. by rewrite Hrun in Hkeys1.
    - unfold modify in Hrun. by simplify_eq/=. }
  apply Hall. split; apply map_Forall_empty.
Qed.

(** X16: an operation keeps the two maps without a common path, unless it
    is a capture ([snapshotFile], [autoSnapshotBeforeChange],
    [trackNewFile]) made on a path that has a deleted record. *)
Theorem perform_keeps_maps_apart (op : Operation) (w : World) :
  exclusive (this w) →
  (isCapture op = false ∨
   ∃ uri, op ∈ [SnapshotFile uri; AutoSnapshotBeforeChange uri; TrackNewFile uri] ∧
          deletedFiles (this w) !! fsPath uri = None) →
  exclusive (this (run (perform op) w)).
Proof.
  intros Hexclusive [Hop|(uri & Hop & Hnone)].
  - by apply perform_exclusive.
  - by eapply capture_exclusive.
Qed.

Lemma perform_keeps_maps_apart_witness :
  exclusive (this (run (perform (TrackDeletedFile fileF None)) tracked)).
Proof.
  apply perform_keeps_maps_apart.
  - apply map_disjoint_empty_r.
  - by left.
Defined.

(** ** Excluded paths *)

Section Strings.

Implicit Types (s sub pattern : string) (c : ascii).

Lemma append_String c s s' : String c s +:+ s' = String c (s +:+ s').
Proof. reflexivity. Qed.

Lemma append_empty_l s : "" +:+ s = s.
Proof. reflexivity. Qed.

Lemma replaceChar_removes c s :
  JsString.replaceChar c "" s = keepWhere (λ x, negb (Ascii.eqb x c)) s.
Proof.
  induction s as [|c' s IH]; [done|]. simpl.
  destruct (Ascii.eqb c' c); simpl; [by rewrite append_empty_l | by f_equal].
Qed.

Lemma keepWhere_twice (f g : ascii → bool) s :
  keepWhere f (keepWhere g s) = keepWhere (λ c, g c && f c) s.
Proof.
  induction s as [|c s IH]; [done|]. simpl.
  destruct (g c); simpl; [|done]. destruct (f c); [by f_equal | done].
Qed.

Lemma keepWhere_ext (f g : ascii → bool) s :
  (∀ c, f c = g c) → keepWhere f s = keepWhere g s.
Proof. intros Hfg. induction s as [|c s IH]; [done|]. simpl. by rewrite Hfg, IH. Qed.

Lemma removeDoubleStars_then_stars s :
  keepWhere (λ x, negb (Ascii.eqb x "*")) (JsString.removeDoubleStars s)
  = keepWhere (λ x, negb (Ascii.eqb x "*")) s.
Proof.
  cut ((keepWhere (λ x, negb (Ascii.eqb x "*")) (JsString.removeDoubleStars s)
        = keepWhere (λ x, negb (Ascii.eqb x "*")) s) ∧
       ∀ c, keepWhere (λ x, negb (Ascii.eqb x "*"))
              (JsString.removeDoubleStars (String c s))
            = keepWhere (λ x, negb (Ascii.eqb x "*")) (String c s)); [by intros []|].
  induction s as [|c' s [IH1 IH2]]; [split; [done | by intros c]|].
  split; [apply IH2|]. intros c.
  change (JsString.removeDoubleStars (String c (String c' s)))
    with (if Ascii.eqb c "*" && Ascii.eqb c' "*" then JsString.removeDoubleStars s
          else String c (JsString.removeDoubleStars (String c' s))).
  destruct (Ascii.eqb c "*") eqn:Hc; destruct (Ascii.eqb c' "*") eqn:Hc'; simpl;
    rewrite ?Hc, ?Hc'; simpl; rewrite ?IH1; try done.
  all: specialize (IH2 c'); simpl in IH2; rewrite ?Hc' in IH2; simpl in IH2;
    by rewrite IH2.
Qed.

Lemma cleanPattern_keepWhere pattern :
  cleanPattern pattern = keepWhere notStarOrSlash pattern.
Proof.
  unfold cleanPattern. rewrite !replaceChar_removes, removeDoubleStars_then_stars.
  rewrite keepWhere_twice. by apply keepWhere_ext.
Qed.

(** X17: the three replacements that clean an exclusion pattern remove
    exactly its stars and slashes and keep every other character in
    place. *)
Theorem cleanPattern_strips_stars_and_slashes pattern :
  cleanPattern pattern = keepWhere notStarOrSlash pattern.
Proof.
  unfold cleanPattern. rewrite !replaceChar_removes, removeDoubleStars_then_stars.
  rewrite keepWhere_twice. by apply keepWhere_ext.
Qed.

Lemma prefix_occurs sub s :
  String.prefix sub s = true ↔ ∃ after, s = sub +:+ after.
Proof.
  revert s. induction sub as [|c sub IH]; intros s.
  - destruct s; simpl; (split; [intros _; by eexists | done]).
  - destruct s as [|c' s]; simpl; [split; [done | by intros [? [=]]]|].
    destruct (Ascii.ascii_dec c c') as [<-|Hne].
    + rewrite IH. split; intros [after Hafter]; exists after.
      * by rewrite append_String, <- Hafter.
      * rewrite append_String in Hafter. by injection Hafter.
    + split; [done|]. intros [after Hafter]. rewrite append_String in Hafter.
      injection Hafter as ? ?. by destruct Hne.
Qed.

Lemma includes_occurs s sub : JsString.includes s sub = true ↔ occursIn sub s.
Proof.
  unfold occursIn. induction s as [|c s IH].
  - change (JsString.includes "" sub) with (String.prefix sub "" || false).
    rewrite orb_false_r, prefix_occurs. split.
    + intros [after ->]. by exists "", after.
    + intros ([|c before] & after & Heq); [by exists after|].
      rewrite append_String in Heq. discriminate.
  - change (JsString.includes (String c s) sub)
      with (String.prefix sub (String c s) || JsString.includes s sub).
    rewrite orb_true_iff, prefix_occurs, IH. split.
    + intros [[after ->]|(before & after & ->)].
      * by exists "", after.
      * by exists (String c before), after.
    + intros ([|c' before] & after & Heq).
      * left. by exists after.
      * right. rewrite append_String in Heq. injection Heq as -> ->.
        by exists before, after.
Qed.

Lemma truthy_nonempty s : JsString.truthy s = true ↔ s ≠ "".
Proof. by destruct s. Qed.

End Strings.

(** X18: a path is excluded exactly when some pattern, once its stars and
    slashes are dropped, is non-empty and occurs somewhere in the path
    written with forward slashes.  So a pattern made only of stars and
    slashes never excludes anything. *)
Theorem excludedBy_iff_cleaned_pattern_occurs (excludePatterns : list string) (path : string) :
  (excludedBy excludePatterns path = true ↔
   ∃ pattern,
     pattern ∈ excludePatterns ∧
     keepWhere notStarOrSlash pattern ≠ "" ∧
     occursIn (keepWhere notStarOrSlash pattern) (JsString.replaceChar "\" "/" path)) ∧
  ((∀ pattern, pattern ∈ excludePatterns → keepWhere notStarOrSlash pattern = "") →
   excludedBy excludePatterns path = false).
Proof.
  assert (excludedBy excludePatterns path = true ↔
          ∃ pattern,
            pattern ∈ excludePatterns ∧
            keepWhere notStarOrSlash pattern ≠ "" ∧
            occursIn (keepWhere notStarOrSlash pattern)
              (JsString.replaceChar "\" "/" path)) as Hiff.
  { unfold excludedBy. rewrite existsb_exists. split.
    - intros (pattern & Hin & Htest). exists pattern.
      apply andb_true_iff in Htest as [Hnonempty Hoccurs].
      rewrite cleanPattern_keepWhere in *.
      split; [by apply list_elem_of_In|].
      split; [by apply truthy_nonempty | by apply includes_occurs].
    - intros (pattern & Hin & Hnonempty & Hoccurs). exists pattern.
      split; [by apply list_elem_of_In|].
      rewrite cleanPattern_keepWhere.
      apply andb_true_iff. split; [by apply truthy_nonempty | by apply includes_occurs]. }
  split; [exact Hiff|].
  intros Hempty. apply not_true_is_false. rewrite Hiff.
  intros (pattern & Hin & Hnonempty & _). by apply Hnonempty, Hempty.
Qed.

Example exclude_by_substring :
  excludedBy ["**/node_modules/**"] "/w/my_node_modules_copy/a.js" = true ∧
  excludedBy ["src/generated"] "/w/src/generated/a.ts" = false ∧
  excludedBy ["**/*"] "/w/a.ts" = false ∧
  excludedBy [".git"] "C:\w\.git\config" = true.
Proof. repeat split; reflexivity. Qed.

(** ** The watcher *)

Ltac unfold_W :=
  unfold whenSubscribed, whenWatching, fireFileChanged, updateFileCache,
    getCachedContent, getIsTracking, shouldExclude, isFileScheme, documentText,
    updateWatcher in *;
  unfold InSession.bind, InSession.ret, InSession.gets, InSession.modify,
    InSession.tryCatch in *.

Lemma call_run {A} (m : M A) (s : Session) :
  InSession.call m s = ((m (world s)).1, withWorld (λ _, (m (world s)).2) s).
Proof. unfold InSession.call. by destruct (m (world s)). Qed.

Example watching_state :
  fileContentCache (fileWatcher watching) = {["/w/f.txt" := "v1"]} ∧
  watchers (fileWatcher watching) = ["**/*"] ∧
  disposables (fileWatcher watching)
  = [ConfigurationListener; ChangeTextDocumentListener; OpenTextDocumentListener;
     WillSaveTextDocumentListener; SaveTextDocumentListener] ∧
  isTracking (fileWatcher watching) = true ∧
  world watching = mkWorld (newManager None) (hostWithOpenFile "/w/f.txt" "v1") [].
Proof. repeat split; reflexivity. Qed.

(** The capture from the cache, on a path without baseline whose content
    can be read: the baseline holds the cached text. *)
Lemma snapshotFromCache_run uri cached content s :
  snapshots (this (world s)) !! fsPath uri = None →
  observe uri (world s) = Normal (Some content) →
  snapshotFromCache uri cached s
  = (Normal tt,
     withWorld (λ w, emit SnapshotsChanged
                  (withThis (withSnapshots
                     (insert (fsPath uri) (capturedBaseline uri cached false w))) w)) s).
Proof.
  intros Hnone Hread. unfold snapshotFromCache, InSession.bind.
  rewrite call_run, (autoSnapshotBeforeChange_fresh uri content _ Hnone Hread).
  cbn [fst snd]. rewrite call_run. unfold getSnapshot, snapshotsGet, gets.
  cbn [fst snd withWorld world withThis withSnapshots emit this snapshots].
  rewrite lookup_insert_eq. rewrite call_run. unfold setOriginalContent, modify.
  cbn [fst snd]. unfold withWorld, withThis, withSnapshots, emit. simpl.
  by rewrite alter_insert_eq.
Qed.

(** The same capture when the file cannot be read: no baseline is made. *)
Lemma snapshotFromCache_unreadable uri cached s :
  snapshots (this (world s)) !! fsPath uri = None →
  (∀ content, observe uri (world s) ≠ Normal (Some content)) →
  ∃ s', snapshotFromCache uri cached s = (Normal tt, s') ∧
        this (world s') = this (world s) ∧ host (world s') = host (world s) ∧
        fileWatcher s' = fileWatcher s ∧
        workspaceConfiguration s' = workspaceConfiguration s ∧
        schemeOf s' = schemeOf s ∧
        SnapshotsChanged ∉ drop (length (effects (world s))) (effects (world s')).
Proof.
  intros Hnone Hread. unfold snapshotFromCache, InSession.bind.
  rewrite call_run.
  destruct (observe uri (world s)) as [[content|]|e] eqn:Hobserve.
  - by destruct (Hread content).
  - rewrite (autoSnapshotBeforeChange_missing uri _ Hnone Hobserve). cbn [fst snd].
    rewrite call_run. unfold getSnapshot, snapshotsGet, gets. simpl. rewrite Hnone.
    eexists. split; [reflexivity|]. simpl. repeat split; try done.
    rewrite drop_all. apply not_elem_of_nil.
  - rewrite (autoSnapshotBeforeChange_failing uri _ e Hnone Hobserve). cbn [fst snd].
    rewrite call_run. unfold getSnapshot, snapshotsGet, gets. simpl. rewrite Hnone.
    eexists. split; [reflexivity|]. simpl. repeat split; try done.
    rewrite drop_app_length. rewrite list_elem_of_singleton. discriminate.
Qed.



Lemma withWorld_same s : withWorld (λ _, world s) s = s.
Proof. by destruct s. Qed.

Lemma hasSnapshot_run uri s :
  InSession.call (hasSnapshot uri) s
  = (Normal (bool_decide (is_Some (snapshots (this (world s)) !! fsPath uri))), s).
Proof.
  rewrite call_run. unfold hasSnapshot, snapshotsHas, gets. cbn [fst snd].
  by rewrite withWorld_same.
Qed.

Lemma documentText_run path s :
  InSession.call (Vscode.getText path) s
  = (Normal (default "" (Vscode.lookupDocument path (textDocuments (host (world s))))), s).
Proof.
  rewrite call_run. unfold Vscode.getText, gets. cbn [fst snd].
  by rewrite withWorld_same.
Qed.

(** X20: a file whose text was never cached gets no baseline from the
    watcher: the will-save listener does nothing at all, and the on-disk
    change handler only fires [onFileChanged]. *)
Theorem nothing_cached_nothing_captured (s : Session) (pattern path : string) :
  fileContentCache (fileWatcher s) !! path = None →
  deliver (WillSaveTextDocument path) s = (Normal tt, s) ∧
  ∃ s', deliver (WatcherDidChange pattern (mkUri path)) s = (Normal tt, s') ∧
        world s' = world s ∧
        fileContentCache (fileWatcher s') = fileContentCache (fileWatcher s).
Proof.
  intros Hcache. split.
  - unfold deliver, onWillSaveTextDocument. unfold_W.
    repeat (case_match; cbn [negb fsPath]; cbv beta iota; try reflexivity).
    all: rewrite ?documentText_run, ?hasSnapshot_run in *; cbn [fsPath] in *.
    all: simplify_eq/=; try congruence.
  - unfold deliver, handleFileModified. unfold_W.
    destruct (bool_decide (pattern ∈ watchers (fileWatcher s))); [|by eexists].
    cbv beta iota. cbn [fsPath].
    destruct (excludedBy _ path); [by eexists|]. cbv beta iota.
    rewrite hasSnapshot_run. cbn [fsPath].
    destruct (bool_decide (is_Some (snapshots (this (world s)) !! path)));
      cbn [negb]; cbv beta iota; rewrite ?Hcache; by eexists.
Qed.

Lemma nothing_cached_nothing_captured_witness :
  deliver (WillSaveTextDocument "/w/other.txt") editedInEditor = (Normal tt, editedInEditor).
Proof. apply (nothing_cached_nothing_captured editedInEditor "**/*"). reflexivity. Defined.

Lemma trackNewFile_tracked uri w :
  is_Some (snapshots (this w) !! fsPath uri) → trackNewFile uri w = (Normal tt, w).
Proof.
  intros Hhas. unfold trackNewFile. unfold_M. simpl.
  by rewrite bool_decide_eq_true_2.
Qed.

(** Runs a handler of the watcher down to its case distinctions. *)
Ltac run_handler :=
  repeat first
    [ progress (cbv beta iota; cbn [negb andb fsPath fst snd])
    | rewrite hasSnapshot_run
    | rewrite documentText_run
    | case_match ].

(** X21: once a path has a baseline, no notification about that path
    other than a deletion changes the manager: neither the maps (so the
    cached text never replaces the captured original) nor anything
    else. *)
Theorem baseline_survives_notifications (s : Session) (n : Notification) (path : string) :
  subject n = Some path →
  is_Some (snapshots (this (world s)) !! path) →
  (∀ pattern uri, n ≠ WatcherDidDelete pattern uri) →
  ∃ s', deliver n s = (Normal tt, s') ∧ world s' = world s.
Proof.
  intros Hsubject Hhas Hnot.
  assert (bool_decide (is_Some (snapshots (this (world s)) !! path)) = true) as Hb
    by by apply bool_decide_eq_true_2.
  destruct n as [affects|p|p|p|p|pattern uri|pattern uri|pattern uri];
    simpl in Hsubject; simplify_eq.
  - unfold deliver, onDidChangeTextDocument. unfold_W. run_handler; by eexists.
  - unfold deliver, onDidOpenTextDocument. unfold_W. run_handler; by eexists.
  - unfold deliver, onWillSaveTextDocument. unfold_W.
    run_handler; simplify_eq/=; try by eexists.
    all: rewrite ?Hb, ?andb_false_r in *; simplify_eq/=.
  - unfold deliver, onDidSaveTextDocument. unfold_W.
    run_handler; simplify_eq/=; try by eexists.
    all: rewrite ?Hb, ?andb_false_r in *; simplify_eq/=.
  - unfold deliver, handleFileModified. unfold_W.
    run_handler; simplify_eq/=; try by eexists.
    all: rewrite ?Hb, ?andb_false_r in *; simplify_eq/=.
  - unfold deliver, handleFileCreated. unfold_W.
    run_handler; simplify_eq/=; try by eexists.
    all: rewrite call_run, trackNewFile_tracked in * by done; simplify_eq/=.
    all: by eexists.
  - by destruct (Hnot pattern uri).
Qed.

Lemma baseline_survives_notifications_witness :
  ∃ s', deliver (WillSaveTextDocument "/w/f.txt")
          (withWorld (λ _, trackedAndEdited) editedInEditor) = (Normal tt, s') ∧
        world s' = trackedAndEdited.
Proof.
  apply (baseline_survives_notifications
           (withWorld (λ _, trackedAndEdited) editedInEditor)
           (WillSaveTextDocument "/w/f.txt") "/w/f.txt").
  - reflexivity.
  - exists (FileSnapshot.mk fileF "v1" 0 "/w/f.txt" false). reflexivity.
  - discriminate.
Defined.

(** X22: no notification about an excluded path changes the manager, and
    none but the did-save one changes anything: the did-save listener does
    not test for exclusion and caches the text of an excluded file that has
    no baseline. *)
Theorem excluded_path_never_reaches_the_manager
    (s : Session) (n : Notification) (path : string) :
  subject n = Some path →
  excludedBy (default [] (excludePatternsSetting (config (fileWatcher s)))) path = true →
  ∃ s', deliver n s = (Normal tt, s') ∧
        world s' = world s ∧
        ((∀ p, n ≠ DidSaveTextDocument p) → s' = s).
Proof.
  intros Hsubject Hexcluded.
  destruct n as [affects|p|p|p|p|pattern uri|pattern uri|pattern uri];
    simpl in Hsubject; simplify_eq.
  - unfold deliver, onDidChangeTextDocument. unfold_W.
    run_handler; simplify_eq/=; try congruence; by eexists.
  - unfold deliver, onDidOpenTextDocument. unfold_W.
    run_handler; simplify_eq/=; try congruence; by eexists.
  - unfold deliver, onWillSaveTextDocument. unfold_W.
    run_handler; simplify_eq/=; try congruence; by eexists.
  - unfold deliver, onDidSaveTextDocument. unfold_W.
    run_handler; simplify_eq/=; (eexists; split; [reflexivity|]); split; try done.
    all: by intros Hnot; destruct (Hnot path).
  - unfold deliver, handleFileModified. unfold_W.
    run_handler; simplify_eq/=; try congruence; by eexists.
  - unfold deliver, handleFileCreated. unfold_W.
    run_handler; simplify_eq/=; try congruence; by eexists.
  - unfold deliver, handleFileDeleted. unfold_W.
    run_handler; simplify_eq/=; try congruence; by eexists.
Qed.

Lemma excluded_path_never_reaches_the_manager_witness :
  deliver (WatcherDidCreate "**/*" (mkUri "/w/node_modules/a.js")) watchingWithExclusion
  = (Normal tt, watchingWithExclusion).
Proof.
  destruct (excluded_path_never_reaches_the_manager watchingWithExclusion
              (WatcherDidCreate "**/*" (mkUri "/w/node_modules/a.js"))
              "/w/node_modules/a.js") as (s' & Hrun & _ & Hsame).
  - reflexivity.
  - reflexivity.
  - rewrite Hrun. f_equal. apply Hsame. discriminate.
Defined.

(** X23: when a watched file changes on disk, is not excluded, has no
    baseline, has a cached text, and can be read, the handler captures a
    baseline whose original is the cached text, whatever was read, and
    fires [onFileChanged]; the cache is unchanged. *)
Theorem disk_change_captures_the_cached_text
    (s : Session) (pattern : string) (uri : Uri) (cached content : string) :
  pattern ∈ watchers (fileWatcher s) →
  excludedBy (default [] (excludePatternsSetting (config (fileWatcher s)))) (fsPath uri)
    = false →
  fileContentCache (fileWatcher s) !! fsPath uri = Some cached →
  snapshots (this (world s)) !! fsPath uri = None →
  observe uri (world s) = Normal (Some content) →
  ∃ s',
    deliver (WatcherDidChange pattern uri) s = (Normal tt, s') ∧
    snapshots (this (world s'))
      = <[fsPath uri := capturedBaseline uri cached false (world s)]>
          (snapshots (this (world s))) ∧
    deletedFiles (this (world s')) = deletedFiles (this (world s)) ∧
    host (world s') = host (world s) ∧
    fileContentCache (fileWatcher s') = fileContentCache (fileWatcher s) ∧
    onFileChanged (fileWatcher s') = (onFileChanged (fileWatcher s) ++ [uri])%list.
Proof.
  intros Hlive Hexcluded Hcache Hnone Hread.
  unfold deliver, handleFileModified. unfold_W.
  rewrite bool_decide_eq_true_2 by done. cbv beta iota.
  rewrite Hexcluded. cbv beta iota.
  rewrite hasSnapshot_run, Hnone.
  rewrite bool_decide_eq_false_2 by (by intros [? [=]]). cbn [negb]. cbv beta iota.
  rewrite Hcache.
  rewrite (snapshotFromCache_run uri cached content) by done.
  eexists. split; [reflexivity|]. done.
Qed.

Lemma disk_change_captures_the_cached_text_witness :
  ∃ s', deliver (WatcherDidChange "**/*" fileF)
          (withWorld (onDisk "/w/f.txt" "v2") watching) = (Normal tt, s') ∧
        snapshots (this (world s')) !! "/w/f.txt"
        = Some (FileSnapshot.mk fileF "v1" 0 "/w/f.txt" false).
Proof.
  destruct (disk_change_captures_the_cached_text
              (withWorld (onDisk "/w/f.txt" "v2") watching) "**/*" fileF "v1" "v1")
    as (s' & Hrun & Hsnapshots & _).
  - vm_compute. left.
  - reflexivity.
  - reflexivity.
  - reflexivity.
  - reflexivity.
  - exists s'. split; [exact Hrun|]. rewrite Hsnapshots. reflexivity.
Defined.

(** X29: when a watched file changes on disk but cannot be read (it is
    gone again, or the read fails), the handler captures nothing: the
    manager's maps, the host and the cache are as before, no change of
    snapshots is announced and nothing is thrown; [onFileChanged] is fired
    all the same. *)
Theorem disk_change_of_unreadable_file
    (s : Session) (pattern : string) (uri : Uri) (cached : string) :
  pattern ∈ watchers (fileWatcher s) →
  excludedBy (default [] (excludePatternsSetting (config (fileWatcher s)))) (fsPath uri)
    = false →
  fileContentCache (fileWatcher s) !! fsPath uri = Some cached →
  snapshots (this (world s)) !! fsPath uri = None →
  (∀ content, observe uri (world s) ≠ Normal (Some content)) →
  ∃ s',
    deliver (WatcherDidChange pattern uri) s = (Normal tt, s') ∧
    this (world s') = this (world s) ∧
    host (world s') = host (world s) ∧
    (SnapshotsChanged ∉ drop (length (effects (world s))) (effects (world s'))) ∧
    fileContentCache (fileWatcher s') = fileContentCache (fileWatcher s) ∧
    onFileChanged (fileWatcher s') = (onFileChanged (fileWatcher s) ++ [uri])%list.
Proof.
  intros Hlive Hexcluded Hcache Hnone Hread.
  unfold deliver, handleFileModified. unfold_W.
  rewrite bool_decide_eq_true_2 by done. cbv beta iota.
  rewrite Hexcluded. cbv beta iota.
  rewrite hasSnapshot_run, Hnone.
  rewrite bool_decide_eq_false_2 by (by intros [? [=]]). cbn [negb]. cbv beta iota.
  rewrite Hcache.
  destruct (snapshotFromCache_unreadable uri cached s Hnone Hread)
    as (s1 & -> & Hthis & Hhost & Hwatcher & _ & _ & Hquiet).
  eexists. split; [reflexivity|]. simpl. by rewrite Hwatcher.
Qed.

Lemma disk_change_of_unreadable_file_witness :
  ∃ s', deliver (WatcherDidChange "**/*" fileF)
          (withWorld (withHost (λ _, quietHost)) watching) = (Normal tt, s') ∧
        this (world s') = newManager None ∧
        onFileChanged (fileWatcher s') = [fileF].
Proof.
  destruct (disk_change_of_unreadable_file
              (withWorld (withHost (λ _, quietHost)) watching) "**/*" fileF "v1")
    as (s' & Hrun & Hthis & _ & _ & _ & Hfired).
  - vm_compute. left.
  - reflexivity.
  - reflexivity.
  - reflexivity.
  - intros content. discriminate.
  - exists s'. split; [exact Hrun|]. rewrite Hthis, Hfired. split; reflexivity.
Defined.

(** X24: when a watched file that is not excluded is deleted, the handler
    records the deletion with the baseline's original if there is a
    baseline, else the cached text, else the empty string; it removes the
    baseline and the cache entry and fires [onFileChanged]. *)
Theorem deletion_is_recorded_from_baseline_or_cache
    (s : Session) (pattern : string) (uri : Uri) :
  pattern ∈ watchers (fileWatcher s) →
  excludedBy (default [] (excludePatternsSetting (config (fileWatcher s)))) (fsPath uri)
    = false →
  ∃ s',
    deliver (WatcherDidDelete pattern uri) s = (Normal tt, s') ∧
    FileSnapshot.originalContent <$> deletedFiles (this (world s')) !! fsPath uri
    = Some (match snapshots (this (world s)) !! fsPath uri with
            | Some baseline => FileSnapshot.originalContent baseline
            | None => default "" (fileContentCache (fileWatcher s) !! fsPath uri)
            end) ∧
    snapshots (this (world s')) = delete (fsPath uri) (snapshots (this (world s))) ∧
    host (world s') = host (world s) ∧
    fileContentCache (fileWatcher s') = delete (fsPath uri) (fileContentCache (fileWatcher s)) ∧
    onFileChanged (fileWatcher s') = (onFileChanged (fileWatcher s) ++ [uri])%list.
Proof.
  intros Hlive Hexcluded.
  unfold deliver, handleFileDeleted. unfold_W.
  rewrite bool_decide_eq_true_2 by done. cbv beta iota.
  rewrite Hexcluded. cbv beta iota. rewrite call_run.
  destruct (trackDeletedFile_run uri (fileContentCache (fileWatcher s) !! fsPath uri)
              (world s)) as (w' & Hrun & Hsnapshots & Hdeleted & Hhost & _).
  rewrite Hrun. cbn [fst snd]. eexists. split; [reflexivity|]. simpl.
  rewrite Hdeleted, lookup_insert_eq. simpl.
  split; [by destruct (snapshots (this (world s)) !! fsPath uri)|]. done.
Qed.

Lemma deletion_is_recorded_from_baseline_or_cache_witness :
  ∃ s', deliver (WatcherDidDelete "**/*" fileF) watching = (Normal tt, s') ∧
        FileSnapshot.originalContent <$> deletedFiles (this (world s')) !! "/w/f.txt"
        = Some "v1".
Proof.
  destruct (deletion_is_recorded_from_baseline_or_cache watching "**/*" fileF)
    as (s' & Hrun & Hrecord & _).
  - vm_compute. left.
  - reflexivity.
  - exists s'. split; [exact Hrun | exact Hrecord].
Defined.



(** ** Stopping, and a change of configuration *)

Lemma deliver_to_nobody n s :
  disposables (fileWatcher s) = [] →
  watchers (fileWatcher s) = [] →
  deliver n s = (Normal tt, s).
Proof.
  intros Hdisposables Hwatchers.
  destruct n; unfold deliver; unfold_W; rewrite ?Hdisposables, ?Hwatchers;
    by rewrite bool_decide_eq_false_2 by apply not_elem_of_nil.
Qed.

(** X26: [stopTracking] on a tracking watcher empties the cache, disposes
    every watcher and listener and fires [onTrackingChanged(false)], and
    leaves the manager as it is: baselines and deleted records survive.
    From then on no notification has any effect.  On a watcher that is not
    tracking it does nothing. *)
Theorem stopTracking_silences_the_watcher (s : Session) :
  (isTracking (fileWatcher s) = false → stopTracking s = (Normal tt, s)) ∧
  (isTracking (fileWatcher s) = true →
   ∃ s',
     stopTracking s = (Normal tt, s') ∧
     world s' = world s ∧
     fileContentCache (fileWatcher s') = ∅ ∧
     isTracking (fileWatcher s') = false ∧
     onTrackingChanged (fileWatcher s') = (onTrackingChanged (fileWatcher s) ++ [false])%list ∧
     ∀ n, deliver n s' = (Normal tt, s')).
Proof.
  split; intros Htracking; unfold stopTracking, disposeWatchers; unfold_W;
    rewrite Htracking; cbn [negb]; cbv beta iota; [done|].
  eexists. split; [reflexivity|]. do 4 (split; [done|]).
  intros n. by apply deliver_to_nobody.
Qed.

Lemma watchers_loop (patterns : list string) (s : Session) :
  InSession.forOf patterns
    (λ pattern _, updateWatcher (withWatchers (λ ws, ws ++ [pattern])%list)) tt s
  = (Normal tt, withFileWatcher (withWatchers (λ ws, ws ++ patterns)%list) s).
Proof.
  revert s. induction patterns as [|pattern patterns IH]; intros s.
  - simpl. unfold InSession.ret. f_equal.
    destruct s as [w [ws t c d cache fired changed] cfg scheme].
    unfold withFileWatcher, withWatchers. simpl. by rewrite app_nil_r.
  - cbn [InSession.forOf]. unfold InSession.bind, updateWatcher at 1, InSession.modify.
    rewrite IH. f_equal.
    destruct s as [w [ws t c d cache fired changed] cfg scheme].
    unfold withFileWatcher, withWatchers. simpl. by rewrite <- app_assoc.
Qed.

Lemma setupWatchers_run s :
  setupWatchers s
  = (Normal tt,
     withFileWatcher
       (withWatchers (λ ws,
          ws ++ default ["**/*"] (watchPatternsSetting (config (fileWatcher s))))%list) s).
Proof.
  unfold setupWatchers, InSession.bind, InSession.gets. apply watchers_loop.
Qed.

(** X27: a change of the [pendingChanges] settings that reaches a tracking
    watcher makes it read the new settings and replace its file-system
    watchers, but [restartWatchers] disposes everything in
    [this.disposables] and subscribes nothing again: the watcher is still
    tracking, with its cache and the manager untouched, yet no document
    notification and no later change of settings reaches it any more. *)
Theorem settings_change_drops_document_listeners (s : Session) :
  ConfigurationListener ∈ disposables (fileWatcher s) →
  isTracking (fileWatcher s) = true →
  ∃ s',
    deliver (DidChangeConfiguration true) s = (Normal tt, s') ∧
    config (fileWatcher s') = workspaceConfiguration s ∧
    watchers (fileWatcher s')
    = default ["**/*"] (watchPatternsSetting (workspaceConfiguration s)) ∧
    disposables (fileWatcher s') = [] ∧
    isTracking (fileWatcher s') = true ∧
    fileContentCache (fileWatcher s') = fileContentCache (fileWatcher s) ∧
    world s' = world s ∧
    ∀ n, (∀ pattern uri, n ≠ WatcherDidChange pattern uri ∧
                         n ≠ WatcherDidCreate pattern uri ∧
                         n ≠ WatcherDidDelete pattern uri) →
         deliver n s' = (Normal tt, s').
Proof.
  intros Hlive Htracking.
  unfold deliver at 1, onDidChangeConfiguration, restartWatchers, disposeWatchers. unfold_W.
  rewrite bool_decide_eq_true_2 by done. cbv beta iota.
  cbn [isTracking fileWatcher withFileWatcher withConfig]. rewrite Htracking.
  rewrite setupWatchers_run.
  eexists. split; [reflexivity|]. do 6 (split; [done|]).
  intros n Hnot.
  destruct n as [affects|p|p|p|p|pattern uri|pattern uri|pattern uri];
    try (by destruct (Hnot pattern uri) as (? & ? & ?)).
  all: unfold deliver; unfold_W; simpl;
    first [done | by rewrite bool_decide_eq_false_2 by apply not_elem_of_nil].
Qed.

Lemma settings_change_drops_document_listeners_witness :
  ∃ s', deliver (DidChangeConfiguration true) watching = (Normal tt, s') ∧
        deliver (WillSaveTextDocument "/w/f.txt") s' = (Normal tt, s').
Proof.
  destruct (settings_change_drops_document_listeners watching)
    as (s' & Hrun & _ & _ & _ & _ & _ & _ & Hdeaf).
  - vm_compute. left.
  - reflexivity.
  - exists s'. split; [exact Hrun|]. apply Hdeaf. intros pattern uri.
    repeat split; discriminate.
Defined.

(** ** Accepting through the command *)

Lemma call_pair {A} (m : M A) (s : Session) r w :
  m (world s) = (r, w) → InSession.call m s = (r, withWorld (λ _, w) s).
Proof. intros Hrun. unfold InSession.call. by rewrite Hrun. Qed.

(** The method written over a session is the manager's method when the
    callback only acts on the world. *)
Lemma acceptAndUpdateBaseline_agrees
    (uri : Uri) (callback : option (Uri → string → M unit)) (s : Session) :
  acceptAndUpdateBaselineInSession uri
    ((λ f u content, InSession.call (f u content)) <$> callback) s
  = InSession.call (acceptAndUpdateBaseline uri callback) s.
Proof.
  destruct (acceptAndUpdateBaseline uri callback (world s)) as [r w'] eqn:Hm.
  rewrite (call_pair _ _ _ _ Hm).
  unfold acceptAndUpdateBaseline in Hm. unfold_M. simpl in Hm.
  unfold acceptAndUpdateBaselineInSession, InSession.bind, InSession.tryCatch,
    InSession.ret, InSession.call.
  unfold deletedFilesHas, deletedFilesDelete, snapshotsGet, snapshotsDelete, fire,
    consoleError, gets, modify. simpl.
  destruct s as [w fw cfg scheme]. simpl in *.
  repeat (case_match; simplify_eq/=); done.
Qed.

Lemma acceptFileCommand_run s uri baseline content :
  deletedFiles (this (world s)) !! fsPath uri = None →
  snapshots (this (world s)) !! fsPath uri = Some baseline →
  observe uri (world s) = Normal (Some content) →
  acceptFileCommand uri s
  = (Normal tt,
     withWorld (λ w, emit SnapshotsChanged (withThis (withSnapshots (delete (fsPath uri))) w))
       (withFileWatcher (withCache (insert (fsPath uri) content)) s)).
Proof.
  intros Hdeleted Hbaseline Hread.
  unfold acceptFileCommand, acceptAndUpdateBaselineInSession.
  unfold InSession.bind at 1.
  rewrite call_run. unfold deletedFilesHas, gets. cbn [fst snd].
  rewrite withWorld_same, Hdeleted.
  rewrite bool_decide_eq_false_2 by (by intros [? [=]]).
  unfold InSession.bind at 1.
  rewrite call_run. unfold snapshotsGet, gets. cbn [fst snd].
  rewrite withWorld_same, Hbaseline.
  unfold InSession.tryCatch, InSession.bind.
  rewrite call_run, readFileContent_run. cbn [fst snd]. rewrite withWorld_same, Hread.
  unfold updateFileCache, updateWatcher, InSession.modify.
  rewrite !call_run. unfold snapshotsDelete, fire, modify. simpl. by destruct s.
Qed.

(** X28: accepting a changed file through the command drops its baseline
    and puts the accepted content in the watcher's cache; when the file is
    next changed on disk, the baseline captured is the accepted content,
    not the original from before the accept, so the listing shows the file
    as [modified] against what was accepted. *)
Theorem accept_rebases_on_the_accepted_content
    (s : Session) (pattern : string) (uri : Uri) (baseline : FileSnapshot.t)
    (accepted edited : string) (later : Host) :
  pattern ∈ watchers (fileWatcher s) →
  excludedBy (default [] (excludePatternsSetting (config (fileWatcher s)))) (fsPath uri)
    = false →
  wellKeyed (this (world s)) →
  deletedFiles (this (world s)) !! fsPath uri = None →
  snapshots (this (world s)) !! fsPath uri = Some baseline →
  observe uri (world s) = Normal (Some accepted) →
  contentOn later uri = Normal (Some edited) →
  edited ≠ accepted →
  ∃ s1 s2 changes w',
    acceptFileCommand uri s = (Normal tt, s1) ∧
    snapshots (this (world s1)) !! fsPath uri = None ∧
    fileContentCache (fileWatcher s1) !! fsPath uri = Some accepted ∧
    deliver (WatcherDidChange pattern uri) (withWorld (withHost (λ _, later)) s1)
    = (Normal tt, s2) ∧
    FileSnapshot.originalContent <$> snapshots (this (world s2)) !! fsPath uri
    = Some accepted ∧
    getChangedFiles (world s2) = (Normal changes, w') ∧
    (FileChange.originalContent <$> entriesFor (fsPath uri) changes = [accepted]) ∧
    (FileChange.currentContent <$> entriesFor (fsPath uri) changes = [edited]) ∧
    (FileChange.changeType <$> entriesFor (fsPath uri) changes = [modified]).
Proof.
  intros Hlive Hexcluded Hkeys Hdeleted Hbaseline Hread Hlater Hdiffers.
  pose (s1 := withWorld
                (λ w, emit SnapshotsChanged
                        (withThis (withSnapshots (delete (fsPath uri))) w))
                (withFileWatcher (withCache (insert (fsPath uri) accepted)) s)).
  pose (s1' := withWorld (withHost (λ _, later)) s1).
  pose (s2 := withFileWatcher (withFileChanged uri)
                (withWorld (λ w, emit SnapshotsChanged
                   (withThis (withSnapshots
                      (insert (fsPath uri) (capturedBaseline uri accepted false w))) w))
                   s1')).
  assert (observe uri (world s1') = Normal (Some edited)) as Hread1
    by (unfold s1'; by rewrite observe_host_only).
  assert (snapshots (this (world s1')) !! fsPath uri = None) as Hnone
    by apply lookup_delete_eq.
  assert (deliver (WatcherDidChange pattern uri) s1' = (Normal tt, s2)) as Hdeliver.
  { unfold deliver, handleFileModified. unfold_W.
    rewrite bool_decide_eq_true_2 by done. cbv beta iota.
    change (config (fileWatcher s1')) with (config (fileWatcher s)).
    rewrite Hexcluded. cbv beta iota.
    rewrite hasSnapshot_run, Hnone.
    rewrite bool_decide_eq_false_2 by (by intros [? [=]]). cbn [negb]. cbv beta iota.
    change (fileContentCache (fileWatcher s1'))
      with (<[fsPath uri:=accepted]> (fileContentCache (fileWatcher s))).
    rewrite lookup_insert_eq.
    by rewrite (snapshotFromCache_run uri accepted edited) by done. }
  destruct (getChangedFiles_run (world s2)) as (w' & Hlist & _).
  exists s1, s2, (changeList (world s2)), w'.
  split; [by apply (acceptFileCommand_run s uri baseline accepted)|].
  split; [apply lookup_delete_eq|].
  split; [apply lookup_insert_eq|]. split; [exact Hdeliver|].
  split; [simpl; by rewrite lookup_insert_eq|]. split; [exact Hlist|].
  rewrite entriesFor_changeList.
  - unfold entriesOfPath. simpl. rewrite lookup_insert_eq, Hdeleted. simpl.
    rewrite observe_host_only. simpl. rewrite Hlater. simpl.
    by rewrite bool_decide_eq_true_2 by done.
  - destruct Hkeys. split; simpl; [|done].
    apply map_Forall_insert_2; [done|]. by apply map_Forall_delete.
Qed.

Lemma accept_rebases_on_the_accepted_content_witness :
  ∃ s1 s2 changes w',
    acceptFileCommand fileF (withWorld (λ _, trackedAndEdited) watching) = (Normal tt, s1) ∧
    snapshots (this (world s1)) !! "/w/f.txt" = None ∧
    fileContentCache (fileWatcher s1) !! "/w/f.txt" = Some "v2" ∧
    deliver (WatcherDidChange "**/*" fileF)
      (withWorld (withHost (λ _, withDisk (insert "/w/f.txt" "v3") (host trackedAndEdited))) s1)
    = (Normal tt, s2) ∧
    FileSnapshot.originalContent <$> snapshots (this (world s2)) !! "/w/f.txt" = Some "v2" ∧
    getChangedFiles (world s2) = (Normal changes, w') ∧
    (FileChange.originalContent <$> entriesFor "/w/f.txt" changes = ["v2"]) ∧
    (FileChange.currentContent <$> entriesFor "/w/f.txt" changes = ["v3"]) ∧
    (FileChange.changeType <$> entriesFor "/w/f.txt" changes = [modified]).
Proof.
  apply (accept_rebases_on_the_accepted_content
           (withWorld (λ _, trackedAndEdited) watching) "**/*" fileF
           (FileSnapshot.mk fileF "v1" 0 "/w/f.txt" false) "v2" "v3"
           (withDisk (insert "/w/f.txt" "v3") (host trackedAndEdited))).
  - vm_compute. left.
  - reflexivity.
  - eapply bool_decide_unpack. vm_compute. exact I.
  - reflexivity.
  - reflexivity.
  - reflexivity.
  - reflexivity.
  - discriminate.
Defined.

(** ** Text shown in the webviews *)

Section Escapes.

Import PendingChangesWebviewProvider PendingChangesPanelProvider.

Lemma append_assoc_string (a b c : string) : (a +:+ b) +:+ c = a +:+ (b +:+ c).
Proof.
  induction a as [|x a IH]; [done|].
  change (String x ((a +:+ b) +:+ c) = String x (a +:+ (b +:+ c))). by rewrite IH.
Qed.

Lemma replaceChar_app c by_ a b :
  JsString.replaceChar c by_ (a +:+ b)
  = JsString.replaceChar c by_ a +:+ JsString.replaceChar c by_ b.
Proof.
  induction a as [|x a IH]; [done|].
  change (String x a +:+ b) with (String x (a +:+ b)). cbn [JsString.replaceChar].
  destruct (Ascii.eqb x c); rewrite IH; [by rewrite append_assoc_string | done].
Qed.

(** On a single character the chain of replacements gives the character's
    entity: no replacement touches what an earlier one wrote. *)
Lemma escapeHtml_char c :
  escapeHtml (String c "") = entity false c ∧
  _escapeHtml (String c "") = entity true c.
Proof. destruct c as [[] [] [] [] [] [] [] []]; split; reflexivity. Qed.

Lemma escapeHtml_cons c rest :
  escapeHtml (String c rest) = escapeHtml (String c "") +:+ escapeHtml rest ∧
  _escapeHtml (String c rest) = _escapeHtml (String c "") +:+ _escapeHtml rest.
Proof.
  unfold escapeHtml, _escapeHtml.
  change (String c rest) with (String c "" +:+ rest).
  by rewrite !replaceChar_app.
Qed.

Lemma escapeHtml_eachChar text :
  escapeHtml text = eachChar (entity false) text ∧
  _escapeHtml text = eachChar (entity true) text.
Proof.
  induction text as [|c rest [IH1 IH2]]; [done|].
  destruct (escapeHtml_cons c rest) as [-> ->].
  destruct (escapeHtml_char c) as [-> ->]. cbn [eachChar]. by rewrite IH1, IH2.
Qed.

Lemma list_ascii_of_string_app a b :
  list_ascii_of_string (a +:+ b) = (list_ascii_of_string a ++ list_ascii_of_string b)%list.
Proof.
  induction a as [|x a IH]; [done|].
  change (String x a +:+ b) with (String x (a +:+ b)). cbn [list_ascii_of_string].
  by rewrite IH.
Qed.

Lemma eachChar_Forall (P : ascii → Prop) f text :
  (∀ c, Forall P (list_ascii_of_string (f c))) →
  Forall P (list_ascii_of_string (eachChar f text)).
Proof.
  intros Hf. induction text as [|c rest IH]; [constructor|].
  cbn [eachChar]. rewrite list_ascii_of_string_app. by apply Forall_app.
Qed.

Lemma entity_Forall apostrophe c :
  Forall (λ x, x ≠ "<"%char ∧ x ≠ ">"%char ∧ x ≠ doubleQuote ∧
               (apostrophe = true → x ≠ "'"%char))
    (list_ascii_of_string (entity apostrophe c)).
Proof.
  unfold entity.
  destruct (Ascii.eqb c "&") eqn:H1; [repeat constructor; discriminate|].
  destruct (Ascii.eqb c "<") eqn:H2; [repeat constructor; discriminate|].
  destruct (Ascii.eqb c ">") eqn:H3; [repeat constructor; discriminate|].
  destruct (Ascii.eqb c doubleQuote) eqn:H4; [repeat constructor; discriminate|].
  destruct (apostrophe && Ascii.eqb c "'") eqn:H5; [repeat constructor; discriminate|].
  apply Ascii.eqb_neq in H2, H3, H4.
  repeat constructor; try done.
  intros ->. by apply Ascii.eqb_neq in H5.
Qed.

Lemma entity_nonempty apostrophe c rest : entity apostrophe c +:+ rest ≠ "".
Proof. unfold entity. by repeat case_match. Qed.

(** No entity is the beginning of another entity followed by more text. *)
Lemma entity_prefix_free apostrophe c c' rest rest' :
  entity apostrophe c +:+ rest = entity apostrophe c' +:+ rest' → c = c' ∧ rest = rest'.
Proof.
  unfold entity. intros H.
  destruct apostrophe; cbn [andb] in H;
    repeat match type of H with
           | context [Ascii.eqb ?x ?y] => destruct (Ascii.eqb_spec x y)
           end;
    cbn in H; simplify_eq; done.
Qed.

Lemma eachChar_entity_inj apostrophe a b :
  eachChar (entity apostrophe) a = eachChar (entity apostrophe) b → a = b.
Proof.
  revert b. induction a as [|c a IH]; intros [|c' b] H; cbn [eachChar] in H.
  - done.
  - symmetry in H. by apply entity_nonempty in H.
  - by apply entity_nonempty in H.
  - apply entity_prefix_free in H as [-> H]. f_equal. by apply IH.
Qed.

End Escapes.

(** X30: the chain of global replacements of either escape function comes
    to replacing each character of the text on its own: [&], [<], [>] and
    the double quote (and, in the panel, the apostrophe) by their entities,
    every other character by itself; an ampersand written by a replacement
    is never escaped again.  So the result holds no [<], [>] or double
    quote (nor, in the panel, an apostrophe), and two different texts never
    get the same result. *)
Theorem escapeHtml_replaces_each_character (text : string) :
  PendingChangesWebviewProvider.escapeHtml text = eachChar (entity false) text ∧
  PendingChangesPanelProvider._escapeHtml text = eachChar (entity true) text ∧
  Forall (λ c, c ≠ "<"%char ∧ c ≠ ">"%char ∧ c ≠ doubleQuote)
    (list_ascii_of_string (PendingChangesWebviewProvider.escapeHtml text)) ∧
  Forall (λ c, c ≠ "<"%char ∧ c ≠ ">"%char ∧ c ≠ doubleQuote ∧ c ≠ "'"%char)
    (list_ascii_of_string (PendingChangesPanelProvider._escapeHtml text)) ∧
  (∀ other,
     PendingChangesWebviewProvider.escapeHtml other
     = PendingChangesWebviewProvider.escapeHtml text → other = text) ∧
  (∀ other,
     PendingChangesPanelProvider._escapeHtml other
     = PendingChangesPanelProvider._escapeHtml text → other = text).
Proof.
  destruct (escapeHtml_eachChar text) as [Htree Hpanel].
  split; [done|]. split; [done|]. rewrite Htree, Hpanel. split; [|split; [|split]].
  - apply eachChar_Forall. intros c.
    eapply Forall_impl; [apply (entity_Forall false)|]. by intros x (? & ? & ? & _).
  - apply eachChar_Forall. intros c.
    eapply Forall_impl; [apply (entity_Forall true)|].
    intros x (? & ? & ? & Hquote). repeat split; try done. by apply Hquote.
  - intros other. destruct (escapeHtml_eachChar other) as [-> _].
    apply eachChar_entity_inj.
  - intros other. destruct (escapeHtml_eachChar other) as [_ ->].
    apply eachChar_entity_inj.
Qed.
